(** * Protocol status comparison: the loader and the comparator

    A shallow embedding of [carregar_dados_upload] and [processar_e_comparar]
    of [analise_protocolos_dashboard.py], and the properties of the
    comparison pipeline proved on it.

    Conventions of the embedding.
    - A Python [str] is the list of its code points ([pystr]).
    - A cell of a DataFrame is text or the missing value NaN ([cell]): the
      record sets hold two textual columns.  The loader asks pandas for
      text on the identifier column; a status column in which pandas finds
      numbers is outside the embedding.
    - A DataFrame is the list of its rows, in order; the row index plays no
      part in what the functions return and is left out.
    - pandas is taken as the code was written for it: a column that holds
      text is an object column, and an inner merge keeps the order of the
      left rows.  The statements below do not depend on that order.
    - [upper] is [str.upper] on every code point: it is driven by the
      table of the code points that Python uppercases to something else.
    - The two DataFrames received by [processar_e_comparar] are mutated in
      place by it: they live in a [store] and the function is a computation
      in a state monad over that store. *)

From Stdlib Require Import String Ascii List NArith Bool Arith Lia Permutation.
Import ListNotations.

(** ** Python strings *)

Module PyStr.

Definition pystr := list N.

(** The code points of a string literal. *)
Fixpoint str (s : string) : pystr :=
  match s with
  | EmptyString => []
  | String c s' => N_of_ascii c :: str s'
  end.

Definition between (lo hi c : N) : bool := (lo <=? c)%N && (c <=? hi)%N.

(** [str.isspace] on one code point: the whitespace that [str.strip()]
    removes when it is called without argument. *)
Definition isspace (c : N) : bool :=
  between 9 13 c || between 28 32 c || (c =? 133)%N || (c =? 160)%N
  || (c =? 5760)%N || between 8192 8202 c || (c =? 8232)%N || (c =? 8233)%N
  || (c =? 8239)%N || (c =? 8287)%N || (c =? 12288)%N.

Fixpoint lstrip (s : pystr) : pystr :=
  match s with
  | [] => []
  | c :: s' => if isspace c then lstrip s' else s
  end.

Definition rstrip (s : pystr) : pystr := rev (lstrip (rev s)).

(** [s.strip()] *)
Definition strip (s : pystr) : pystr := rstrip (lstrip s).

(** The code points that [str.upper] changes, each with the code points
    of its uppercase, in increasing order (CPython 3.11, Unicode 14.0: 1525
    entries, 102 of them with an uppercase of two or three code points). *)
Definition upper_table : list (N * list N) :=
  [
    (97, [65]); (98, [66]); (99, [67]); (100, [68]); (101, [69]); (102, [70]);
    (103, [71]); (104, [72]); (105, [73]); (106, [74]); (107, [75]);
    (108, [76]); (109, [77]); (110, [78]); (111, [79]); (112, [80]);
    (113, [81]); (114, [82]); (115, [83]); (116, [84]); (117, [85]);
    (118, [86]); (119, [87]); (120, [88]); (121, [89]); (122, [90]);
    (181, [924]); (223, [83; 83]); (224, [192]); (225, [193]); (226, [194]);
    (227, [195]); (228, [196]); (229, [197]); (230, [198]); (231, [199]);
    (232, [200]); (233, [201]); (234, [202]); (235, [203]); (236, [204]);
    (237, [205]); (238, [206]); (239, [207]); (240, [208]); (241, [209]);
    (242, [210]); (243, [211]); (244, [212]); (245, [213]); (246, [214]);
    (248, [216]); (249, [217]); (250, [218]); (251, [219]); (252, [220]);
    (253, [221]); (254, [222]); (255, [376]); (257, [256]); (259, [258]);
    (261, [260]); (263, [262]); (265, [264]); (267, [266]); (269, [268]);
    (271, [270]); (273, [272]); (275, [274]); (277, [276]); (279, [278]);
    (281, [280]); (283, [282]); (285, [284]); (287, [286]); (289, [288]);
    (291, [290]); (293, [292]); (295, [294]); (297, [296]); (299, [298]);
    (301, [300]); (303, [302]); (305, [73]); (307, [306]); (309, [308]);
    (311, [310]); (314, [313]); (316, [315]); (318, [317]); (320, [319]);
    (322, [321]); (324, [323]); (326, [325]); (328, [327]); (329, [700; 78]);
    (331, [330]); (333, [332]); (335, [334]); (337, [336]); (339, [338]);
    (341, [340]); (343, [342]); (345, [344]); (347, [346]); (349, [348]);
    (351, [350]); (353, [352]); (355, [354]); (357, [356]); (359, [358]);
    (361, [360]); (363, [362]); (365, [364]); (367, [366]); (369, [368]);
    (371, [370]); (373, [372]); (375, [374]); (378, [377]); (380, [379]);
    (382, [381]); (383, [83]); (384, [579]); (387, [386]); (389, [388]);
    (392, [391]); (396, [395]); (402, [401]); (405, [502]); (409, [408]);
    (410, [573]); (414, [544]); (417, [416]); (419, [418]); (421, [420]);
    (424, [423]); (429, [428]); (432, [431]); (436, [435]); (438, [437]);
    (441, [440]); (445, [444]); (447, [503]); (453, [452]); (454, [452]);
    (456, [455]); (457, [455]); (459, [458]); (460, [458]); (462, [461]);
    (464, [463]); (466, [465]); (468, [467]); (470, [469]); (472, [471]);
    (474, [473]); (476, [475]); (477, [398]); (479, [478]); (481, [480]);
    (483, [482]); (485, [484]); (487, [486]); (489, [488]); (491, [490]);
    (493, [492]); (495, [494]); (496, [74; 780]); (498, [497]); (499, [497]);
    (501, [500]); (505, [504]); (507, [506]); (509, [508]); (511, [510]);
    (513, [512]); (515, [514]); (517, [516]); (519, [518]); (521, [520]);
    (523, [522]); (525, [524]); (527, [526]); (529, [528]); (531, [530]);
    (533, [532]); (535, [534]); (537, [536]); (539, [538]); (541, [540]);
    (543, [542]); (547, [546]); (549, [548]); (551, [550]); (553, [552]);
    (555, [554]); (557, [556]); (559, [558]); (561, [560]); (563, [562]);
    (572, [571]); (575, [11390]); (576, [11391]); (578, [577]); (583, [582]);
    (585, [584]); (587, [586]); (589, [588]); (591, [590]); (592, [11375]);
    (593, [11373]); (594, [11376]); (595, [385]); (596, [390]); (598, [393]);
    (599, [394]); (601, [399]); (603, [400]); (604, [42923]); (608, [403]);
    (609, [42924]); (611, [404]); (613, [42893]); (614, [42922]);
    (616, [407]); (617, [406]); (618, [42926]); (619, [11362]);
    (620, [42925]); (623, [412]); (625, [11374]); (626, [413]); (629, [415]);
    (637, [11364]); (640, [422]); (642, [42949]); (643, [425]);
    (647, [42929]); (648, [430]); (649, [580]); (650, [433]); (651, [434]);
    (652, [581]); (658, [439]); (669, [42930]); (670, [42928]); (837, [921]);
    (881, [880]); (883, [882]); (887, [886]); (891, [1021]); (892, [1022]);
    (893, [1023]); (912, [921; 776; 769]); (940, [902]); (941, [904]);
    (942, [905]); (943, [906]); (944, [933; 776; 769]); (945, [913]);
    (946, [914]); (947, [915]); (948, [916]); (949, [917]); (950, [918]);
    (951, [919]); (952, [920]); (953, [921]); (954, [922]); (955, [923]);
    (956, [924]); (957, [925]); (958, [926]); (959, [927]); (960, [928]);
    (961, [929]); (962, [931]); (963, [931]); (964, [932]); (965, [933]);
    (966, [934]); (967, [935]); (968, [936]); (969, [937]); (970, [938]);
    (971, [939]); (972, [908]); (973, [910]); (974, [911]); (976, [914]);
    (977, [920]); (981, [934]); (982, [928]); (983, [975]); (985, [984]);
    (987, [986]); (989, [988]); (991, [990]); (993, [992]); (995, [994]);
    (997, [996]); (999, [998]); (1001, [1000]); (1003, [1002]);
    (1005, [1004]); (1007, [1006]); (1008, [922]); (1009, [929]);
    (1010, [1017]); (1011, [895]); (1013, [917]); (1016, [1015]);
    (1019, [1018]); (1072, [1040]); (1073, [1041]); (1074, [1042]);
    (1075, [1043]); (1076, [1044]); (1077, [1045]); (1078, [1046]);
    (1079, [1047]); (1080, [1048]); (1081, [1049]); (1082, [1050]);
    (1083, [1051]); (1084, [1052]); (1085, [1053]); (1086, [1054]);
    (1087, [1055]); (1088, [1056]); (1089, [1057]); (1090, [1058]);
    (1091, [1059]); (1092, [1060]); (1093, [1061]); (1094, [1062]);
    (1095, [1063]); (1096, [1064]); (1097, [1065]); (1098, [1066]);
    (1099, [1067]); (1100, [1068]); (1101, [1069]); (1102, [1070]);
    (1103, [1071]); (1104, [1024]); (1105, [1025]); (1106, [1026]);
    (1107, [1027]); (1108, [1028]); (1109, [1029]); (1110, [1030]);
    (1111, [1031]); (1112, [1032]); (1113, [1033]); (1114, [1034]);
    (1115, [1035]); (1116, [1036]); (1117, [1037]); (1118, [1038]);
    (1119, [1039]); (1121, [1120]); (1123, [1122]); (1125, [1124]);
    (1127, [1126]); (1129, [1128]); (1131, [1130]); (1133, [1132]);
    (1135, [1134]); (1137, [1136]); (1139, [1138]); (1141, [1140]);
    (1143, [1142]); (1145, [1144]); (1147, [1146]); (1149, [1148]);
    (1151, [1150]); (1153, [1152]); (1163, [1162]); (1165, [1164]);
    (1167, [1166]); (1169, [1168]); (1171, [1170]); (1173, [1172]);
    (1175, [1174]); (1177, [1176]); (1179, [1178]); (1181, [1180]);
    (1183, [1182]); (1185, [1184]); (1187, [1186]); (1189, [1188]);
    (1191, [1190]); (1193, [1192]); (1195, [1194]); (1197, [1196]);
    (1199, [1198]); (1201, [1200]); (1203, [1202]); (1205, [1204]);
    (1207, [1206]); (1209, [1208]); (1211, [1210]); (1213, [1212]);
    (1215, [1214]); (1218, [1217]); (1220, [1219]); (1222, [1221]);
    (1224, [1223]); (1226, [1225]); (1228, [1227]); (1230, [1229]);
    (1231, [1216]); (1233, [1232]); (1235, [1234]); (1237, [1236]);
    (1239, [1238]); (1241, [1240]); (1243, [1242]); (1245, [1244]);
    (1247, [1246]); (1249, [1248]); (1251, [1250]); (1253, [1252]);
    (1255, [1254]); (1257, [1256]); (1259, [1258]); (1261, [1260]);
    (1263, [1262]); (1265, [1264]); (1267, [1266]); (1269, [1268]);
    (1271, [1270]); (1273, [1272]); (1275, [1274]); (1277, [1276]);
    (1279, [1278]); (1281, [1280]); (1283, [1282]); (1285, [1284]);
    (1287, [1286]); (1289, [1288]); (1291, [1290]); (1293, [1292]);
    (1295, [1294]); (1297, [1296]); (1299, [1298]); (1301, [1300]);
    (1303, [1302]); (1305, [1304]); (1307, [1306]); (1309, [1308]);
    (1311, [1310]); (1313, [1312]); (1315, [1314]); (1317, [1316]);
    (1319, [1318]); (1321, [1320]); (1323, [1322]); (1325, [1324]);
    (1327, [1326]); (1377, [1329]); (1378, [1330]); (1379, [1331]);
    (1380, [1332]); (1381, [1333]); (1382, [1334]); (1383, [1335]);
    (1384, [1336]); (1385, [1337]); (1386, [1338]); (1387, [1339]);
    (1388, [1340]); (1389, [1341]); (1390, [1342]); (1391, [1343]);
    (1392, [1344]); (1393, [1345]); (1394, [1346]); (1395, [1347]);
    (1396, [1348]); (1397, [1349]); (1398, [1350]); (1399, [1351]);
    (1400, [1352]); (1401, [1353]); (1402, [1354]); (1403, [1355]);
    (1404, [1356]); (1405, [1357]); (1406, [1358]); (1407, [1359]);
    (1408, [1360]); (1409, [1361]); (1410, [1362]); (1411, [1363]);
    (1412, [1364]); (1413, [1365]); (1414, [1366]); (1415, [1333; 1362]);
    (4304, [7312]); (4305, [7313]); (4306, [7314]); (4307, [7315]);
    (4308, [7316]); (4309, [7317]); (4310, [7318]); (4311, [7319]);
    (4312, [7320]); (4313, [7321]); (4314, [7322]); (4315, [7323]);
    (4316, [7324]); (4317, [7325]); (4318, [7326]); (4319, [7327]);
    (4320, [7328]); (4321, [7329]); (4322, [7330]); (4323, [7331]);
    (4324, [7332]); (4325, [7333]); (4326, [7334]); (4327, [7335]);
    (4328, [7336]); (4329, [7337]); (4330, [7338]); (4331, [7339]);
    (4332, [7340]); (4333, [7341]); (4334, [7342]); (4335, [7343]);
    (4336, [7344]); (4337, [7345]); (4338, [7346]); (4339, [7347]);
    (4340, [7348]); (4341, [7349]); (4342, [7350]); (4343, [7351]);
    (4344, [7352]); (4345, [7353]); (4346, [7354]); (4349, [7357]);
    (4350, [7358]); (4351, [7359]); (5112, [5104]); (5113, [5105]);
    (5114, [5106]); (5115, [5107]); (5116, [5108]); (5117, [5109]);
    (7296, [1042]); (7297, [1044]); (7298, [1054]); (7299, [1057]);
    (7300, [1058]); (7301, [1058]); (7302, [1066]); (7303, [1122]);
    (7304, [42570]); (7545, [42877]); (7549, [11363]); (7566, [42950]);
    (7681, [7680]); (7683, [7682]); (7685, [7684]); (7687, [7686]);
    (7689, [7688]); (7691, [7690]); (7693, [7692]); (7695, [7694]);
    (7697, [7696]); (7699, [7698]); (7701, [7700]); (7703, [7702]);
    (7705, [7704]); (7707, [7706]); (7709, [7708]); (7711, [7710]);
    (7713, [7712]); (7715, [7714]); (7717, [7716]); (7719, [7718]);
    (7721, [7720]); (7723, [7722]); (7725, [7724]); (7727, [7726]);
    (7729, [7728]); (7731, [7730]); (7733, [7732]); (7735, [7734]);
    (7737, [7736]); (7739, [7738]); (7741, [7740]); (7743, [7742]);
    (7745, [7744]); (7747, [7746]); (7749, [7748]); (7751, [7750]);
    (7753, [7752]); (7755, [7754]); (7757, [7756]); (7759, [7758]);
    (7761, [7760]); (7763, [7762]); (7765, [7764]); (7767, [7766]);
    (7769, [7768]); (7771, [7770]); (7773, [7772]); (7775, [7774]);
    (7777, [7776]); (7779, [7778]); (7781, [7780]); (7783, [7782]);
    (7785, [7784]); (7787, [7786]); (7789, [7788]); (7791, [7790]);
    (7793, [7792]); (7795, [7794]); (7797, [7796]); (7799, [7798]);
    (7801, [7800]); (7803, [7802]); (7805, [7804]); (7807, [7806]);
    (7809, [7808]); (7811, [7810]); (7813, [7812]); (7815, [7814]);
    (7817, [7816]); (7819, [7818]); (7821, [7820]); (7823, [7822]);
    (7825, [7824]); (7827, [7826]); (7829, [7828]); (7830, [72; 817]);
    (7831, [84; 776]); (7832, [87; 778]); (7833, [89; 778]);
    (7834, [65; 702]); (7835, [7776]); (7841, [7840]); (7843, [7842]);
    (7845, [7844]); (7847, [7846]); (7849, [7848]); (7851, [7850]);
    (7853, [7852]); (7855, [7854]); (7857, [7856]); (7859, [7858]);
    (7861, [7860]); (7863, [7862]); (7865, [7864]); (7867, [7866]);
    (7869, [7868]); (7871, [7870]); (7873, [7872]); (7875, [7874]);
    (7877, [7876]); (7879, [7878]); (7881, [7880]); (7883, [7882]);
    (7885, [7884]); (7887, [7886]); (7889, [7888]); (7891, [7890]);
    (7893, [7892]); (7895, [7894]); (7897, [7896]); (7899, [7898]);
    (7901, [7900]); (7903, [7902]); (7905, [7904]); (7907, [7906]);
    (7909, [7908]); (7911, [7910]); (7913, [7912]); (7915, [7914]);
    (7917, [7916]); (7919, [7918]); (7921, [7920]); (7923, [7922]);
    (7925, [7924]); (7927, [7926]); (7929, [7928]); (7931, [7930]);
    (7933, [7932]); (7935, [7934]); (7936, [7944]); (7937, [7945]);
    (7938, [7946]); (7939, [7947]); (7940, [7948]); (7941, [7949]);
    (7942, [7950]); (7943, [7951]); (7952, [7960]); (7953, [7961]);
    (7954, [7962]); (7955, [7963]); (7956, [7964]); (7957, [7965]);
    (7968, [7976]); (7969, [7977]); (7970, [7978]); (7971, [7979]);
    (7972, [7980]); (7973, [7981]); (7974, [7982]); (7975, [7983]);
    (7984, [7992]); (7985, [7993]); (7986, [7994]); (7987, [7995]);
    (7988, [7996]); (7989, [7997]); (7990, [7998]); (7991, [7999]);
    (8000, [8008]); (8001, [8009]); (8002, [8010]); (8003, [8011]);
    (8004, [8012]); (8005, [8013]); (8016, [933; 787]); (8017, [8025]);
    (8018, [933; 787; 768]); (8019, [8027]); (8020, [933; 787; 769]);
    (8021, [8029]); (8022, [933; 787; 834]); (8023, [8031]); (8032, [8040]);
    (8033, [8041]); (8034, [8042]); (8035, [8043]); (8036, [8044]);
    (8037, [8045]); (8038, [8046]); (8039, [8047]); (8048, [8122]);
    (8049, [8123]); (8050, [8136]); (8051, [8137]); (8052, [8138]);
    (8053, [8139]); (8054, [8154]); (8055, [8155]); (8056, [8184]);
    (8057, [8185]); (8058, [8170]); (8059, [8171]); (8060, [8186]);
    (8061, [8187]); (8064, [7944; 921]); (8065, [7945; 921]);
    (8066, [7946; 921]); (8067, [7947; 921]); (8068, [7948; 921]);
    (8069, [7949; 921]); (8070, [7950; 921]); (8071, [7951; 921]);
    (8072, [7944; 921]); (8073, [7945; 921]); (8074, [7946; 921]);
    (8075, [7947; 921]); (8076, [7948; 921]); (8077, [7949; 921]);
    (8078, [7950; 921]); (8079, [7951; 921]); (8080, [7976; 921]);
    (8081, [7977; 921]); (8082, [7978; 921]); (8083, [7979; 921]);
    (8084, [7980; 921]); (8085, [7981; 921]); (8086, [7982; 921]);
    (8087, [7983; 921]); (8088, [7976; 921]); (8089, [7977; 921]);
    (8090, [7978; 921]); (8091, [7979; 921]); (8092, [7980; 921]);
    (8093, [7981; 921]); (8094, [7982; 921]); (8095, [7983; 921]);
    (8096, [8040; 921]); (8097, [8041; 921]); (8098, [8042; 921]);
    (8099, [8043; 921]); (8100, [8044; 921]); (8101, [8045; 921]);
    (8102, [8046; 921]); (8103, [8047; 921]); (8104, [8040; 921]);
    (8105, [8041; 921]); (8106, [8042; 921]); (8107, [8043; 921]);
    (8108, [8044; 921]); (8109, [8045; 921]); (8110, [8046; 921]);
    (8111, [8047; 921]); (8112, [8120]); (8113, [8121]); (8114, [8122; 921]);
    (8115, [913; 921]); (8116, [902; 921]); (8118, [913; 834]);
    (8119, [913; 834; 921]); (8124, [913; 921]); (8126, [921]);
    (8130, [8138; 921]); (8131, [919; 921]); (8132, [905; 921]);
    (8134, [919; 834]); (8135, [919; 834; 921]); (8140, [919; 921]);
    (8144, [8152]); (8145, [8153]); (8146, [921; 776; 768]);
    (8147, [921; 776; 769]); (8150, [921; 834]); (8151, [921; 776; 834]);
    (8160, [8168]); (8161, [8169]); (8162, [933; 776; 768]);
    (8163, [933; 776; 769]); (8164, [929; 787]); (8165, [8172]);
    (8166, [933; 834]); (8167, [933; 776; 834]); (8178, [8186; 921]);
    (8179, [937; 921]); (8180, [911; 921]); (8182, [937; 834]);
    (8183, [937; 834; 921]); (8188, [937; 921]); (8526, [8498]);
    (8560, [8544]); (8561, [8545]); (8562, [8546]); (8563, [8547]);
    (8564, [8548]); (8565, [8549]); (8566, [8550]); (8567, [8551]);
    (8568, [8552]); (8569, [8553]); (8570, [8554]); (8571, [8555]);
    (8572, [8556]); (8573, [8557]); (8574, [8558]); (8575, [8559]);
    (8580, [8579]); (9424, [9398]); (9425, [9399]); (9426, [9400]);
    (9427, [9401]); (9428, [9402]); (9429, [9403]); (9430, [9404]);
    (9431, [9405]); (9432, [9406]); (9433, [9407]); (9434, [9408]);
    (9435, [9409]); (9436, [9410]); (9437, [9411]); (9438, [9412]);
    (9439, [9413]); (9440, [9414]); (9441, [9415]); (9442, [9416]);
    (9443, [9417]); (9444, [9418]); (9445, [9419]); (9446, [9420]);
    (9447, [9421]); (9448, [9422]); (9449, [9423]); (11312, [11264]);
    (11313, [11265]); (11314, [11266]); (11315, [11267]); (11316, [11268]);
    (11317, [11269]); (11318, [11270]); (11319, [11271]); (11320, [11272]);
    (11321, [11273]); (11322, [11274]); (11323, [11275]); (11324, [11276]);
    (11325, [11277]); (11326, [11278]); (11327, [11279]); (11328, [11280]);
    (11329, [11281]); (11330, [11282]); (11331, [11283]); (11332, [11284]);
    (11333, [11285]); (11334, [11286]); (11335, [11287]); (11336, [11288]);
    (11337, [11289]); (11338, [11290]); (11339, [11291]); (11340, [11292]);
    (11341, [11293]); (11342, [11294]); (11343, [11295]); (11344, [11296]);
    (11345, [11297]); (11346, [11298]); (11347, [11299]); (11348, [11300]);
    (11349, [11301]); (11350, [11302]); (11351, [11303]); (11352, [11304]);
    (11353, [11305]); (11354, [11306]); (11355, [11307]); (11356, [11308]);
    (11357, [11309]); (11358, [11310]); (11359, [11311]); (11361, [11360]);
    (11365, [570]); (11366, [574]); (11368, [11367]); (11370, [11369]);
    (11372, [11371]); (11379, [11378]); (11382, [11381]); (11393, [11392]);
    (11395, [11394]); (11397, [11396]); (11399, [11398]); (11401, [11400]);
    (11403, [11402]); (11405, [11404]); (11407, [11406]); (11409, [11408]);
    (11411, [11410]); (11413, [11412]); (11415, [11414]); (11417, [11416]);
    (11419, [11418]); (11421, [11420]); (11423, [11422]); (11425, [11424]);
    (11427, [11426]); (11429, [11428]); (11431, [11430]); (11433, [11432]);
    (11435, [11434]); (11437, [11436]); (11439, [11438]); (11441, [11440]);
    (11443, [11442]); (11445, [11444]); (11447, [11446]); (11449, [11448]);
    (11451, [11450]); (11453, [11452]); (11455, [11454]); (11457, [11456]);
    (11459, [11458]); (11461, [11460]); (11463, [11462]); (11465, [11464]);
    (11467, [11466]); (11469, [11468]); (11471, [11470]); (11473, [11472]);
    (11475, [11474]); (11477, [11476]); (11479, [11478]); (11481, [11480]);
    (11483, [11482]); (11485, [11484]); (11487, [11486]); (11489, [11488]);
    (11491, [11490]); (11500, [11499]); (11502, [11501]); (11507, [11506]);
    (11520, [4256]); (11521, [4257]); (11522, [4258]); (11523, [4259]);
    (11524, [4260]); (11525, [4261]); (11526, [4262]); (11527, [4263]);
    (11528, [4264]); (11529, [4265]); (11530, [4266]); (11531, [4267]);
    (11532, [4268]); (11533, [4269]); (11534, [4270]); (11535, [4271]);
    (11536, [4272]); (11537, [4273]); (11538, [4274]); (11539, [4275]);
    (11540, [4276]); (11541, [4277]); (11542, [4278]); (11543, [4279]);
    (11544, [4280]); (11545, [4281]); (11546, [4282]); (11547, [4283]);
    (11548, [4284]); (11549, [4285]); (11550, [4286]); (11551, [4287]);
    (11552, [4288]); (11553, [4289]); (11554, [4290]); (11555, [4291]);
    (11556, [4292]); (11557, [4293]); (11559, [4295]); (11565, [4301]);
    (42561, [42560]); (42563, [42562]); (42565, [42564]); (42567, [42566]);
    (42569, [42568]); (42571, [42570]); (42573, [42572]); (42575, [42574]);
    (42577, [42576]); (42579, [42578]); (42581, [42580]); (42583, [42582]);
    (42585, [42584]); (42587, [42586]); (42589, [42588]); (42591, [42590]);
    (42593, [42592]); (42595, [42594]); (42597, [42596]); (42599, [42598]);
    (42601, [42600]); (42603, [42602]); (42605, [42604]); (42625, [42624]);
    (42627, [42626]); (42629, [42628]); (42631, [42630]); (42633, [42632]);
    (42635, [42634]); (42637, [42636]); (42639, [42638]); (42641, [42640]);
    (42643, [42642]); (42645, [42644]); (42647, [42646]); (42649, [42648]);
    (42651, [42650]); (42787, [42786]); (42789, [42788]); (42791, [42790]);
    (42793, [42792]); (42795, [42794]); (42797, [42796]); (42799, [42798]);
    (42803, [42802]); (42805, [42804]); (42807, [42806]); (42809, [42808]);
    (42811, [42810]); (42813, [42812]); (42815, [42814]); (42817, [42816]);
    (42819, [42818]); (42821, [42820]); (42823, [42822]); (42825, [42824]);
    (42827, [42826]); (42829, [42828]); (42831, [42830]); (42833, [42832]);
    (42835, [42834]); (42837, [42836]); (42839, [42838]); (42841, [42840]);
    (42843, [42842]); (42845, [42844]); (42847, [42846]); (42849, [42848]);
    (42851, [42850]); (42853, [42852]); (42855, [42854]); (42857, [42856]);
    (42859, [42858]); (42861, [42860]); (42863, [42862]); (42874, [42873]);
    (42876, [42875]); (42879, [42878]); (42881, [42880]); (42883, [42882]);
    (42885, [42884]); (42887, [42886]); (42892, [42891]); (42897, [42896]);
    (42899, [42898]); (42900, [42948]); (42903, [42902]); (42905, [42904]);
    (42907, [42906]); (42909, [42908]); (42911, [42910]); (42913, [42912]);
    (42915, [42914]); (42917, [42916]); (42919, [42918]); (42921, [42920]);
    (42933, [42932]); (42935, [42934]); (42937, [42936]); (42939, [42938]);
    (42941, [42940]); (42943, [42942]); (42945, [42944]); (42947, [42946]);
    (42952, [42951]); (42954, [42953]); (42961, [42960]); (42967, [42966]);
    (42969, [42968]); (42998, [42997]); (43859, [42931]); (43888, [5024]);
    (43889, [5025]); (43890, [5026]); (43891, [5027]); (43892, [5028]);
    (43893, [5029]); (43894, [5030]); (43895, [5031]); (43896, [5032]);
    (43897, [5033]); (43898, [5034]); (43899, [5035]); (43900, [5036]);
    (43901, [5037]); (43902, [5038]); (43903, [5039]); (43904, [5040]);
    (43905, [5041]); (43906, [5042]); (43907, [5043]); (43908, [5044]);
    (43909, [5045]); (43910, [5046]); (43911, [5047]); (43912, [5048]);
    (43913, [5049]); (43914, [5050]); (43915, [5051]); (43916, [5052]);
    (43917, [5053]); (43918, [5054]); (43919, [5055]); (43920, [5056]);
    (43921, [5057]); (43922, [5058]); (43923, [5059]); (43924, [5060]);
    (43925, [5061]); (43926, [5062]); (43927, [5063]); (43928, [5064]);
    (43929, [5065]); (43930, [5066]); (43931, [5067]); (43932, [5068]);
    (43933, [5069]); (43934, [5070]); (43935, [5071]); (43936, [5072]);
    (43937, [5073]); (43938, [5074]); (43939, [5075]); (43940, [5076]);
    (43941, [5077]); (43942, [5078]); (43943, [5079]); (43944, [5080]);
    (43945, [5081]); (43946, [5082]); (43947, [5083]); (43948, [5084]);
    (43949, [5085]); (43950, [5086]); (43951, [5087]); (43952, [5088]);
    (43953, [5089]); (43954, [5090]); (43955, [5091]); (43956, [5092]);
    (43957, [5093]); (43958, [5094]); (43959, [5095]); (43960, [5096]);
    (43961, [5097]); (43962, [5098]); (43963, [5099]); (43964, [5100]);
    (43965, [5101]); (43966, [5102]); (43967, [5103]); (64256, [70; 70]);
    (64257, [70; 73]); (64258, [70; 76]); (64259, [70; 70; 73]);
    (64260, [70; 70; 76]); (64261, [83; 84]); (64262, [83; 84]);
    (64275, [1348; 1350]); (64276, [1348; 1333]); (64277, [1348; 1339]);
    (64278, [1358; 1350]); (64279, [1348; 1341]); (65345, [65313]);
    (65346, [65314]); (65347, [65315]); (65348, [65316]); (65349, [65317]);
    (65350, [65318]); (65351, [65319]); (65352, [65320]); (65353, [65321]);
    (65354, [65322]); (65355, [65323]); (65356, [65324]); (65357, [65325]);
    (65358, [65326]); (65359, [65327]); (65360, [65328]); (65361, [65329]);
    (65362, [65330]); (65363, [65331]); (65364, [65332]); (65365, [65333]);
    (65366, [65334]); (65367, [65335]); (65368, [65336]); (65369, [65337]);
    (65370, [65338]); (66600, [66560]); (66601, [66561]); (66602, [66562]);
    (66603, [66563]); (66604, [66564]); (66605, [66565]); (66606, [66566]);
    (66607, [66567]); (66608, [66568]); (66609, [66569]); (66610, [66570]);
    (66611, [66571]); (66612, [66572]); (66613, [66573]); (66614, [66574]);
    (66615, [66575]); (66616, [66576]); (66617, [66577]); (66618, [66578]);
    (66619, [66579]); (66620, [66580]); (66621, [66581]); (66622, [66582]);
    (66623, [66583]); (66624, [66584]); (66625, [66585]); (66626, [66586]);
    (66627, [66587]); (66628, [66588]); (66629, [66589]); (66630, [66590]);
    (66631, [66591]); (66632, [66592]); (66633, [66593]); (66634, [66594]);
    (66635, [66595]); (66636, [66596]); (66637, [66597]); (66638, [66598]);
    (66639, [66599]); (66776, [66736]); (66777, [66737]); (66778, [66738]);
    (66779, [66739]); (66780, [66740]); (66781, [66741]); (66782, [66742]);
    (66783, [66743]); (66784, [66744]); (66785, [66745]); (66786, [66746]);
    (66787, [66747]); (66788, [66748]); (66789, [66749]); (66790, [66750]);
    (66791, [66751]); (66792, [66752]); (66793, [66753]); (66794, [66754]);
    (66795, [66755]); (66796, [66756]); (66797, [66757]); (66798, [66758]);
    (66799, [66759]); (66800, [66760]); (66801, [66761]); (66802, [66762]);
    (66803, [66763]); (66804, [66764]); (66805, [66765]); (66806, [66766]);
    (66807, [66767]); (66808, [66768]); (66809, [66769]); (66810, [66770]);
    (66811, [66771]); (66967, [66928]); (66968, [66929]); (66969, [66930]);
    (66970, [66931]); (66971, [66932]); (66972, [66933]); (66973, [66934]);
    (66974, [66935]); (66975, [66936]); (66976, [66937]); (66977, [66938]);
    (66979, [66940]); (66980, [66941]); (66981, [66942]); (66982, [66943]);
    (66983, [66944]); (66984, [66945]); (66985, [66946]); (66986, [66947]);
    (66987, [66948]); (66988, [66949]); (66989, [66950]); (66990, [66951]);
    (66991, [66952]); (66992, [66953]); (66993, [66954]); (66995, [66956]);
    (66996, [66957]); (66997, [66958]); (66998, [66959]); (66999, [66960]);
    (67000, [66961]); (67001, [66962]); (67003, [66964]); (67004, [66965]);
    (68800, [68736]); (68801, [68737]); (68802, [68738]); (68803, [68739]);
    (68804, [68740]); (68805, [68741]); (68806, [68742]); (68807, [68743]);
    (68808, [68744]); (68809, [68745]); (68810, [68746]); (68811, [68747]);
    (68812, [68748]); (68813, [68749]); (68814, [68750]); (68815, [68751]);
    (68816, [68752]); (68817, [68753]); (68818, [68754]); (68819, [68755]);
    (68820, [68756]); (68821, [68757]); (68822, [68758]); (68823, [68759]);
    (68824, [68760]); (68825, [68761]); (68826, [68762]); (68827, [68763]);
    (68828, [68764]); (68829, [68765]); (68830, [68766]); (68831, [68767]);
    (68832, [68768]); (68833, [68769]); (68834, [68770]); (68835, [68771]);
    (68836, [68772]); (68837, [68773]); (68838, [68774]); (68839, [68775]);
    (68840, [68776]); (68841, [68777]); (68842, [68778]); (68843, [68779]);
    (68844, [68780]); (68845, [68781]); (68846, [68782]); (68847, [68783]);
    (68848, [68784]); (68849, [68785]); (68850, [68786]); (71872, [71840]);
    (71873, [71841]); (71874, [71842]); (71875, [71843]); (71876, [71844]);
    (71877, [71845]); (71878, [71846]); (71879, [71847]); (71880, [71848]);
    (71881, [71849]); (71882, [71850]); (71883, [71851]); (71884, [71852]);
    (71885, [71853]); (71886, [71854]); (71887, [71855]); (71888, [71856]);
    (71889, [71857]); (71890, [71858]); (71891, [71859]); (71892, [71860]);
    (71893, [71861]); (71894, [71862]); (71895, [71863]); (71896, [71864]);
    (71897, [71865]); (71898, [71866]); (71899, [71867]); (71900, [71868]);
    (71901, [71869]); (71902, [71870]); (71903, [71871]); (93792, [93760]);
    (93793, [93761]); (93794, [93762]); (93795, [93763]); (93796, [93764]);
    (93797, [93765]); (93798, [93766]); (93799, [93767]); (93800, [93768]);
    (93801, [93769]); (93802, [93770]); (93803, [93771]); (93804, [93772]);
    (93805, [93773]); (93806, [93774]); (93807, [93775]); (93808, [93776]);
    (93809, [93777]); (93810, [93778]); (93811, [93779]); (93812, [93780]);
    (93813, [93781]); (93814, [93782]); (93815, [93783]); (93816, [93784]);
    (93817, [93785]); (93818, [93786]); (93819, [93787]); (93820, [93788]);
    (93821, [93789]); (93822, [93790]); (93823, [93791]); (125218, [125184]);
    (125219, [125185]); (125220, [125186]); (125221, [125187]);
    (125222, [125188]); (125223, [125189]); (125224, [125190]);
    (125225, [125191]); (125226, [125192]); (125227, [125193]);
    (125228, [125194]); (125229, [125195]); (125230, [125196]);
    (125231, [125197]); (125232, [125198]); (125233, [125199]);
    (125234, [125200]); (125235, [125201]); (125236, [125202]);
    (125237, [125203]); (125238, [125204]); (125239, [125205]);
    (125240, [125206]); (125241, [125207]); (125242, [125208]);
    (125243, [125209]); (125244, [125210]); (125245, [125211]);
    (125246, [125212]); (125247, [125213]); (125248, [125214]);
    (125249, [125215]); (125250, [125216]); (125251, [125217])
  ]%N.

(** The entry of [c] in a table in increasing order of the keys. *)
Fixpoint assoc (c : N) (t : list (N * list N)) : option (list N) :=
  match t with
  | [] => None
  | (k, u) :: t' =>
      if (c =? k)%N then Some u
      else if (c <? k)%N then None
      else assoc c t'
  end.

(** [c.upper()] for one code point: [str.upper] maps every code point on
    its own, without regard to its neighbours. *)
Definition upper_cp (c : N) : pystr :=
  match assoc c upper_table with
  | Some u => u
  | None => [c]
  end.

(** [s.upper()] *)
Definition upper (s : pystr) : pystr := flat_map upper_cp s.

Fixpoint eqb (s t : pystr) : bool :=
  match s, t with
  | [], [] => true
  | c :: s', d :: t' => (c =? d)%N && eqb s' t'
  | _, _ => false
  end.

End PyStr.

Import PyStr.

(** ** Cells, Series and DataFrames *)

(** A cell: [Some s] is the text [s], [None] is NaN. *)
Definition cell := option pystr.

Definition Series := list cell.

Definition isna (c : cell) : bool :=
  match c with None => true | Some _ => false end.

Definition notna (c : cell) : bool := negb (isna c).

(** The record sets have two columns.  [col_STATUS] is the column named
    STATUS_ALGAR in [df_algar] and STATUS_AG in [df_data]. *)
Inductive column := col_PROTOCOLO | col_STATUS.

Record Row := mkRow { r_PROTOCOLO : cell; r_STATUS : cell }.

Definition DataFrame := list Row.

(** [df.columns] *)
Definition columns : list column := [col_PROTOCOLO; col_STATUS].

Definition field (c : column) (r : Row) : cell :=
  match c with col_PROTOCOLO => r_PROTOCOLO r | col_STATUS => r_STATUS r end.

Definition set_field (c : column) (v : cell) (r : Row) : Row :=
  match c with
  | col_PROTOCOLO => mkRow v (r_STATUS r)
  | col_STATUS => mkRow (r_PROTOCOLO r) v
  end.

(** [df[col]] *)
Definition get_col (c : column) (df : DataFrame) : Series := map (field c) df.

(** [df[col] = s]: the values are aligned with the rows; a row for which
    the Series has no value receives NaN. *)
Fixpoint set_col (c : column) (s : Series) (df : DataFrame) : DataFrame :=
  match df with
  | [] => []
  | r :: df' =>
      match s with
      | [] => set_field c None r :: set_col c [] df'
      | v :: s' => set_field c v r :: set_col c s' df'
      end
  end.

(** [s.astype(str)]: NaN becomes the text "nan". *)
Definition astype_str (s : Series) : Series :=
  map (fun c => match c with Some t => Some t | None => Some (str "nan") end) s.

(** [s.str.strip()] and [s.str.upper()]: NaN stays NaN. *)
Definition str_strip (s : Series) : Series := map (option_map strip) s.

Definition str_upper (s : Series) : Series := map (option_map upper) s.

(** [s.dtype == 'object']: a column holding some text is an object column;
    a column of NaN alone is a float column.  (On a column of NaN alone the
    test makes no difference, see [not_object_unchanged].) *)
Definition dtype_is_object (s : Series) : bool := existsb notna s.

(** [s.replace(old, new)]: a cell equal to [old] becomes [new]. *)
Definition replace_cell (old new : pystr) (c : cell) : cell :=
  match c with
  | Some t => if eqb t old then Some new else Some t
  | None => None
  end.

Definition replace (old new : pystr) (s : Series) : Series :=
  map (replace_cell old new) s.

(** [a != b] on two cells: NaN differs from everything, itself included. *)
Definition cell_ne (a b : cell) : bool :=
  match a, b with
  | Some x, Some y => negb (eqb x y)
  | _, _ => true
  end.

(** [s1 != s2] on two Series of one length. *)
Fixpoint series_ne (s1 s2 : Series) : list bool :=
  match s1, s2 with
  | a :: s1', b :: s2' => cell_ne a b :: series_ne s1' s2'
  | _, _ => []
  end.

(** [df.dropna(subset=['PROTOCOLO'])] *)
Definition dropna_PROTOCOLO (df : DataFrame) : DataFrame :=
  filter (fun r => notna (r_PROTOCOLO r)) df.

(** ** The merged frame *)

Record MRow := mkMRow { PROTOCOLO : cell; STATUS_ALGAR : cell; STATUS_AG : cell }.

Definition MergedFrame := list MRow.

(** Equality of join keys: [pd.merge] matches a NaN key with a NaN key. *)
Definition key_eqb (a b : cell) : bool :=
  match a, b with
  | Some x, Some y => eqb x y
  | None, None => true
  | _, _ => false
  end.

(** [pd.merge(left, right, on='PROTOCOLO', how='inner')]: every pair of a
    left row and a right row with the same key, in the order of the left
    rows and, for one left row, of the right rows. *)
Definition merge (left right : DataFrame) : MergedFrame :=
  flat_map
    (fun l =>
       map (fun r => mkMRow (r_PROTOCOLO l) (r_STATUS l) (r_STATUS r))
           (filter (fun r => key_eqb (r_PROTOCOLO l) (r_PROTOCOLO r)) right))
    left.

(** [df.dropna(subset=['STATUS_ALGAR', 'STATUS_AG'])] *)
Definition dropna_STATUS (df : MergedFrame) : MergedFrame :=
  filter (fun r => notna (STATUS_ALGAR r) && notna (STATUS_AG r)) df.

(** [df[mask]]: the rows at which the boolean mask is true. *)
Fixpoint loc {A : Type} (mask : list bool) (df : list A) : list A :=
  match mask, df with
  | b :: mask', r :: df' => if b then r :: loc mask' df' else loc mask' df'
  | _, _ => []
  end.

Definition FECHADO : pystr := str "FECHADO".
Definition INSTALADO : pystr := str "INSTALADO".

(** ** The store and its monad *)

(** The two DataFrames that the caller passes; the comparator changes them
    in place.  They are two distinct objects: their status columns have
    different names. *)
Record store := mkStore { df_algar : DataFrame; df_data : DataFrame }.

Inductive df_ref := ref_algar | ref_data.

Definition M (A : Type) : Type := store -> A * store.

Definition ret {A : Type} (a : A) : M A := fun s => (a, s).

Definition bind {A B : Type} (m : M A) (k : A -> M B) : M B :=
  fun s => let (a, s') := m s in k a s'.

Notation "x <- m ;; k" := (bind m (fun x => k))
  (at level 61, m at next level, right associativity).
Notation "m ;; k" := (bind m (fun _ => k))
  (at level 61, right associativity).

Definition read (r : df_ref) : M DataFrame :=
  fun s => (match r with ref_algar => df_algar s | ref_data => df_data s end, s).

Definition write (r : df_ref) (df : DataFrame) : M unit :=
  fun s => (tt, match r with
                | ref_algar => mkStore df (df_data s)
                | ref_data => mkStore (df_algar s) df
                end).

(** [for x in l: body] *)
Fixpoint for_each {A : Type} (l : list A) (body : A -> M unit) : M unit :=
  match l with
  | [] => ret tt
  | x :: l' => body x ;; for_each l' body
  end.

(** [df.dropna(subset=['PROTOCOLO'], inplace=True)] *)
Definition dropna_inplace (r : df_ref) : M unit :=
  df <- read r ;; write r (dropna_PROTOCOLO df).

(** [df[col]] and [df[col] = s] on a DataFrame of the store. *)
Definition getitem (r : df_ref) (c : column) : M Series :=
  df <- read r ;; ret (get_col c df).

Definition setitem (r : df_ref) (c : column) (s : Series) : M unit :=
  df <- read r ;; write r (set_col c s df).

(** ** The comparator *)

(** [processar_e_comparar(df_algar, df_data)]; the result is the pair
    [(df_divergente, df_igual)].  The two columns STATUS_ALGAR_NORM and
    STATUS_AG_NORM that the function adds to [df_merged] are the Series of
    the same names here; the final selection of columns drops them. *)
Definition processar_e_comparar : M (MergedFrame * MergedFrame) :=
  dropna_inplace ref_algar ;;
  dropna_inplace ref_data ;;
  for_each [ref_algar; ref_data] (fun df =>
    p <- getitem df col_PROTOCOLO ;;
    setitem df col_PROTOCOLO (str_strip (astype_str p)) ;;
    for_each columns (fun col =>
      s <- getitem df col ;;
      if dtype_is_object s
      then setitem df col (str_upper (str_strip s))
      else ret tt)) ;;
  left <- read ref_algar ;;
  right <- read ref_data ;;
  let df_merged := merge left right in
  let df_merged := dropna_STATUS df_merged in
  let STATUS_ALGAR_NORM := replace FECHADO INSTALADO (map STATUS_ALGAR df_merged) in
  let STATUS_AG_NORM := replace FECHADO INSTALADO (map STATUS_AG df_merged) in
  let divergencias_mask := series_ne STATUS_ALGAR_NORM STATUS_AG_NORM in
  let df_divergente := loc divergencias_mask df_merged in
  let df_igual := loc (map negb divergencias_mask) df_merged in
  ret (df_divergente, df_igual).

(** One call on the two DataFrames [a] and [d]. *)
Definition run (a d : DataFrame) : (MergedFrame * MergedFrame) * store :=
  processar_e_comparar (mkStore a d).

Definition df_divergente (a d : DataFrame) : MergedFrame := fst (fst (run a d)).
Definition df_igual (a d : DataFrame) : MergedFrame := snd (fst (run a d)).
Definition store_after (a d : DataFrame) : store := snd (run a d).

(** ** The loader *)

(** An exception, with the text that [str(e)] gives. *)
Record Exception := mkException { exc_str : string }.

Definition MSG_ERRO_LEITURA : string :=
  "Ocorreu um erro ao ler os arquivos. Verifique se as planilhas contêm dados nas colunas esperadas (A e D no Excel; C e T no CSV).".

Definition MSG_DETALHE (e : Exception) : string :=
  ("Detalhe do erro: " ++ exc_str e)%string.

Section Loader.

(** The uploaded files and the two pandas readers.  [read_csv] stands for
    the call of line 25 and returns, for each row, the cells of the
    columns 2 and 19; [read_excel] stands for the call of line 39 and
    returns the cells of the columns 0 and 3.  Either raises or returns. *)
Variable UploadedFile : Type.
Variable read_csv : UploadedFile -> Exception + list (cell * cell).
Variable read_excel : UploadedFile -> Exception + list (cell * cell).

(** The body of the [try]. *)
Definition carregar_try (arquivo_csv arquivo_xlsx : UploadedFile)
  : Exception + (DataFrame * DataFrame) :=
  match read_csv arquivo_csv with
  | inl e => inl e
  | inr csv =>
      (* columns = ['PROTOCOLO', 'STATUS_ALGAR'] *)
      let df_algar := map (fun '(c2, c19) => mkRow c2 c19) csv in
      match read_excel arquivo_xlsx with
      | inl e => inl e
      | inr xlsx =>
          (* df_data[[3, 0]], then columns = ['PROTOCOLO', 'STATUS_AG'] *)
          let df_data := map (fun '(c0, c3) => mkRow c3 c0) xlsx in
          inr (df_algar, df_data)
      end
  end.

(** [carregar_dados_upload(arquivo_csv, arquivo_xlsx)]: the pair that is
    returned and the messages passed to [st.error], in order. *)
Definition carregar_dados_upload (arquivo_csv arquivo_xlsx : UploadedFile)
  : (option DataFrame * option DataFrame) * list string :=
  match carregar_try arquivo_csv arquivo_xlsx with
  | inr (df_algar, df_data) => ((Some df_algar, Some df_data), [])
  | inl e => ((None, None), [MSG_ERRO_LEITURA; MSG_DETALHE e])
  end.

End Loader.

Arguments carregar_try {UploadedFile} read_csv read_excel arquivo_csv arquivo_xlsx.
Arguments carregar_dados_upload {UploadedFile} read_csv read_excel
  arquivo_csv arquivo_xlsx.

(** ** The page *)

(** The calls that the script makes on streamlit, in the order in which it
    makes them.  [st_metric] is the call on the first or on the second of
    the two columns; [st_dataframe] is always called with
    [use_container_width=True, hide_index=True]. *)
Inductive widget :=
| st_set_page_config (page_title page_icon layout : string)
| st_title (body : string)
| st_markdown (body : string)
| st_sidebar_header (body : string)
| st_sidebar_file_uploader (label : string) (type : list string)
| st_subheader (body : string)
| st_columns (n : nat)
| st_metric (col : nat) (label : string) (value : nat) (help : string)
| st_error (body : string)
| st_success (body : string)
| st_info (body : string)
| st_dataframe (data : MergedFrame).

(** The text ["\n\n"]. *)
Definition NEWLINES : string := String "010" (String "010" EmptyString).

(** [df.empty] *)
Definition empty (df : MergedFrame) : bool :=
  match df with [] => true | _ :: _ => false end.

Section Page.

Variable UploadedFile : Type.
Variable read_csv : UploadedFile -> Exception + list (cell * cell).
Variable read_excel : UploadedFile -> Exception + list (cell * cell).

(** The script of the module, lines 4 to 9 and 87 to 142.  Its arguments
    are what the two [file_uploader] widgets return: [None] as long as no
    file is uploaded. *)
Definition script (arquivo_algar arquivo_data : option UploadedFile)
  : list widget :=
  [ st_set_page_config "Dashboard de Análise de Protocolos" "📊" "wide";
    st_title "📊 Dashboard de Análise de Protocolos";
    st_markdown "---";
    st_sidebar_header "Carregue os Arquivos";
    st_sidebar_file_uploader "1. Carregue a planilha 'algar' (.csv)" ["csv"%string];
    st_sidebar_file_uploader "2. Carregue a planilha 'data' (.xlsx)" ["xlsx"%string] ]
  ++
  match arquivo_algar, arquivo_data with
  | Some arquivo_algar, Some arquivo_data =>
      let '((df_algar, df_data), errors) :=
        carregar_dados_upload read_csv read_excel arquivo_algar arquivo_data in
      map st_error errors
      ++
      match df_algar, df_data with
      | Some df_algar, Some df_data =>
          let '((df_divergente, df_igual), _) :=
            processar_e_comparar (mkStore df_algar df_data) in
          [ st_subheader "INFORMAÇÃO GERAL";
            st_columns 2;
            st_metric 1 "✅ STATUS COMPATÍVEL" (length df_igual)
              "Quantidade de protocolos com status iguais ou equivalentes ('FECHADO' = 'INSTALADO').";
            st_metric 2 "⚠️ STATUS DIVERGENTE" (length df_divergente)
              "Quantidade de protocolos com status diferentes entre as planilhas.";
            st_markdown NEWLINES;
            st_subheader "⚠️ STATUS DIVERGENTE";
            st_markdown "Protocolos encontrados em ambas as planilhas, mas com status de venda diferentes.";
            if empty df_divergente
            then st_success "Nenhuma divergência encontrada!"
            else st_dataframe df_divergente;
            st_markdown NEWLINES;
            st_subheader "✅ STATUS IGUAL";
            st_markdown "Protocolos com status compatíveis em ambas as planilhas.";
            if empty df_igual
            then st_info "Nenhum protocolo com status igual foi encontrado."
            else st_dataframe df_igual ]
      | _, _ => []
      end
  | _, _ =>
      [ st_info "⬅️ Por favor, carregue os arquivos `algar.csv` e `data.xlsx` na barra lateral para iniciar a análise." ]
  end.

End Page.

Arguments script {UploadedFile} read_csv read_excel arquivo_algar arquivo_data.

(** ** Notions used in the statements *)

(** Trimming and uppercasing of one text. *)
Definition normalize (s : pystr) : pystr := upper (strip s).

Definition normalize_row (r : Row) : Row :=
  mkRow (option_map normalize (r_PROTOCOLO r)) (option_map normalize (r_STATUS r)).

(** A record set after the cleaning: the rows with an identifier, every
    text trimmed and uppercased. *)
Definition cleaned (df : DataFrame) : DataFrame :=
  map normalize_row (dropna_PROTOCOLO df).

(** The value of [df_merged] after line 74: the inner join of the two
    DataFrames as the cleaning loop leaves them in the store. *)
Definition df_merged (a d : DataFrame) : MergedFrame :=
  merge (df_algar (store_after a d)) (df_data (store_after a d)).

(** The joined records that are classified: [df_merged] after line 75. *)
Definition joined (a d : DataFrame) : MergedFrame :=
  dropna_STATUS (df_merged a d).

(** The rewriting of the status synonym on one cell. *)
Definition status_norm (c : cell) : cell := replace_cell FECHADO INSTALADO c.

Definition is_divergent (r : MRow) : bool :=
  cell_ne (status_norm (STATUS_ALGAR r)) (status_norm (STATUS_AG r)).

(** The synonym rule on one status text: "FECHADO" reads "INSTALADO". *)
Definition synonym (s : pystr) : pystr :=
  if eqb s FECHADO then INSTALADO else s.

(** A status, or an identifier, that is missing or is the empty text. *)
Definition is_empty (c : cell) : bool :=
  match c with None => true | Some [] => true | Some (_ :: _) => false end.

(** Two texts with the same letters, in the same or in the other case:
    code point by code point they are equal, or one of the two texts has
    the uppercase of the code point of the other ([upper_cp], which is two
    or three code points for some letters). *)
Inductive same_letters : pystr -> pystr -> Prop :=
| same_nil : same_letters [] []
| same_cons (x : N) (s t : pystr) :
    same_letters s t -> same_letters (x :: s) (x :: t)
| upper_right (x : N) (s t : pystr) :
    same_letters s t -> same_letters (x :: s) (upper_cp x ++ t)
| upper_left (x : N) (s t : pystr) :
    same_letters s t -> same_letters (upper_cp x ++ s) (x :: t).

(** Two identifiers that differ only by surrounding whitespace or by the
    case of their letters. *)
Definition differ_only_by_ws_and_case (a b : pystr) : Prop :=
  exists la ca ra lb cb rb,
    a = la ++ ca ++ ra /\ b = lb ++ cb ++ rb /\
    forallb isspace la = true /\ forallb isspace ra = true /\
    forallb isspace lb = true /\ forallb isspace rb = true /\
    same_letters ca cb.

(** The identifier of a row of a record set, as the join sees it. *)
Definition has_id (k : pystr) (r : Row) : bool :=
  key_eqb (option_map normalize (r_PROTOCOLO r)) (Some k).

Definition count_id (k : pystr) (df : DataFrame) : nat :=
  length (filter (has_id k) df).

(** The rows of a record set with the identifier [k] and a status. *)
Definition count_id_status (k : pystr) (df : DataFrame) : nat :=
  length (filter (fun r => has_id k r && notna (r_STATUS r)) df).

Definition count_joined (k : pystr) (m : MergedFrame) : nat :=
  length (filter (fun r => key_eqb (PROTOCOLO r) (Some k)) m).

(** What the lines 68 to 71 make of one row. *)
Definition clean_row (r : Row) : Row :=
  mkRow
    (option_map upper (option_map strip (option_map strip
       (match r_PROTOCOLO r with Some t => Some t | None => Some (str "nan") end))))
    (option_map upper (option_map strip (r_STATUS r))).

(** The rows of a record set, and of the merged frame, that have the key
    [k] and whose statuses pass the tests [qa] and [qd]. *)
Definition on_side (k : pystr) (q : cell -> bool) (r : Row) : bool :=
  key_eqb (r_PROTOCOLO r) (Some k) && q (r_STATUS r).

Definition on_merged (k : pystr) (qa qd : cell -> bool) (m : MRow) : bool :=
  key_eqb (PROTOCOLO m) (Some k) && qa (STATUS_ALGAR m) && qd (STATUS_AG m).

(** The store with one of its DataFrames changed by [f]. *)
Definition update (r : df_ref) (f : DataFrame -> DataFrame) (st : store) : store :=
  match r with
  | ref_algar => mkStore (f (df_algar st)) (df_data st)
  | ref_data => mkStore (df_algar st) (f (df_data st))
  end.

Definition row (p s : string) : Row := mkRow (Some (str p)) (Some (str s)).

Definition mrow (p a b : string) : MRow :=
  mkMRow (Some (str p)) (Some (str a)) (Some (str b)).

(** The widgets with which every run of the script starts. *)
Definition page_header : list widget :=
  [ st_set_page_config "Dashboard de Análise de Protocolos" "📊" "wide";
    st_title "📊 Dashboard de Análise de Protocolos";
    st_markdown "---";
    st_sidebar_header "Carregue os Arquivos";
    st_sidebar_file_uploader "1. Carregue a planilha 'algar' (.csv)" ["csv"%string];
    st_sidebar_file_uploader "2. Carregue a planilha 'data' (.xlsx)" ["xlsx"%string] ].

(** The widgets that follow the header when both files were loaded, for
    the two outcome sets. *)
Definition page_results (df_divergente df_igual : MergedFrame) : list widget :=
  [ st_subheader "INFORMAÇÃO GERAL";
    st_columns 2;
    st_metric 1 "✅ STATUS COMPATÍVEL" (length df_igual)
      "Quantidade de protocolos com status iguais ou equivalentes ('FECHADO' = 'INSTALADO').";
    st_metric 2 "⚠️ STATUS DIVERGENTE" (length df_divergente)
      "Quantidade de protocolos com status diferentes entre as planilhas.";
    st_markdown NEWLINES;
    st_subheader "⚠️ STATUS DIVERGENTE";
    st_markdown "Protocolos encontrados em ambas as planilhas, mas com status de venda diferentes.";
    if empty df_divergente
    then st_success "Nenhuma divergência encontrada!"
    else st_dataframe df_divergente;
    st_markdown NEWLINES;
    st_subheader "✅ STATUS IGUAL";
    st_markdown "Protocolos com status compatíveis em ambas as planilhas.";
    if empty df_igual
    then st_info "Nenhum protocolo com status igual foi encontrado."
    else st_dataframe df_igual ].

(** The tables, the values of the metrics and the error messages that a
    page shows, in order. *)
Definition tables (page : list widget) : list MergedFrame :=
  flat_map (fun w => match w with st_dataframe df => [df] | _ => [] end) page.

Definition metrics (page : list widget) : list nat :=
  flat_map (fun w => match w with st_metric _ _ v _ => [v] | _ => [] end) page.

Definition errors (page : list widget) : list string :=
  flat_map (fun w => match w with st_error m => [m] | _ => [] end) page.

(** The record sets that the loader makes of the rows of the two readers. *)
Definition frame_of_csv (csv : list (cell * cell)) : DataFrame :=
  map (fun '(c2, c19) => mkRow c2 c19) csv.

Definition frame_of_xlsx (xlsx : list (cell * cell)) : DataFrame :=
  map (fun '(c0, c3) => mkRow c3 c0) xlsx.

(** A joined record with its two statuses exchanged. *)
Definition swap (m : MRow) : MRow :=
  mkMRow (PROTOCOLO m) (STATUS_AG m) (STATUS_ALGAR m).

(** What the proofs need of [upper_table]: no key is whitespace, every
    uppercase is a non-empty text without whitespace whose code points have
    no entry of their own, and [assoc] finds every entry. *)
Definition upper_entry_ok (e : N * list N) : bool :=
  let '(k, u) := e in
  negb (isspace k)
  && match u with [] => false | _ :: _ => true end
  && forallb (fun d => negb (isspace d)
                       && match assoc d upper_table with
                          | None => true
                          | Some _ => false
                          end) u
  && match assoc k upper_table with
     | Some u' => PyStr.eqb u' u
     | None => false
     end.

(** Two given texts have the same letters. *)
Ltac same_letters_of_texts :=
  vm_compute;
  repeat first
    [ apply same_nil
    | apply same_cons
    | match goal with
      | |- same_letters (?x :: ?s) (_ :: ?t) =>
          change (same_letters (x :: s) (upper_cp x ++ t)); apply upper_right
      | |- same_letters (_ :: ?s) (?x :: ?t) =>
          change (same_letters (upper_cp x ++ s) (x :: t)); apply upper_left
      end ].

(** * Properties *)

(** ** Python strings *)

Example strip_abc123 : strip (str " abc123 ") = str "abc123".
Proof. reflexivity. Qed.

Example upper_abc123 : upper (strip (str " abc123 ")) = str "ABC123".
Proof. reflexivity. Qed.

Example upper_sharp_s : upper [115; 116; 114; 97; 223; 101]%N = str "STRASSE".
Proof. reflexivity. Qed.

Lemma eqb_spec (s t : pystr) : reflect (s = t) (eqb s t).
Proof.
  revert t; induction s as [|c s IH]; intros [|d t]; simpl;
    try (constructor; congruence).
  destruct (N.eqb_spec c d) as [->|Hne]; simpl.
  - destruct (IH t) as [->|Hne]; constructor; congruence.
  - constructor; congruence.
Qed.

Lemma eqb_refl (s : pystr) : eqb s s = true.
Proof. destruct (eqb_spec s s); congruence. Qed.

Lemma eqb_eq (s t : pystr) : eqb s t = true <-> s = t.
Proof. destruct (eqb_spec s t); split; congruence. Qed.

Lemma lstrip_all_space (l s : pystr) :
  forallb isspace l = true -> lstrip (l ++ s) = lstrip s.
Proof.
  induction l as [|c l IH]; simpl; intros H; [reflexivity|].
  apply andb_true_iff in H as [Hc Hl]. rewrite Hc. auto.
Qed.

Lemma lstrip_idem (s : pystr) : lstrip (lstrip s) = lstrip s.
Proof.
  induction s as [|c s IH]; simpl; [reflexivity|].
  destruct (isspace c) eqn:Hc; [exact IH|]. simpl. now rewrite Hc.
Qed.

(** [lstrip] on a text extended by one code point on the right. *)
Lemma lstrip_snoc (l : pystr) (c : N) :
  lstrip (l ++ [c]) =
  match lstrip l with
  | [] => if isspace c then [] else [c]
  | _ :: _ => lstrip l ++ [c]
  end.
Proof.
  induction l as [|x l IH]; simpl; [reflexivity|].
  destruct (isspace x); [exact IH | reflexivity].
Qed.

(** [rstrip] by recursion on the text. *)
Lemma rstrip_cons (c : N) (s : pystr) :
  rstrip (c :: s) =
  match rstrip s with
  | [] => if isspace c then [] else [c]
  | _ :: _ => c :: rstrip s
  end.
Proof.
  unfold rstrip; simpl. rewrite lstrip_snoc.
  destruct (lstrip (rev s)) as [|x l] eqn:E; simpl.
  - now destruct (isspace c).
  - rewrite rev_app_distr; simpl.
    destruct (rev l ++ [x]) eqn:E'; [|reflexivity].
    now destruct (rev l).
Qed.

Lemma lstrip_rstrip (s : pystr) : lstrip (rstrip s) = rstrip (lstrip s).
Proof.
  induction s as [|c s IH]; [reflexivity|].
  rewrite rstrip_cons. simpl lstrip at 2.
  destruct (rstrip s) as [|x l] eqn:E.
  - destruct (isspace c) eqn:Hc; simpl.
    + now rewrite <- IH.
    + now rewrite Hc, rstrip_cons, E, Hc.
  - simpl. destruct (isspace c) eqn:Hc.
    + exact IH.
    + now rewrite rstrip_cons, E.
Qed.

Lemma rstrip_idem (s : pystr) : rstrip (rstrip s) = rstrip s.
Proof. unfold rstrip. now rewrite rev_involutive, lstrip_idem. Qed.

Lemma strip_idem (s : pystr) : strip (strip s) = strip s.
Proof.
  unfold strip. now rewrite lstrip_rstrip, lstrip_idem, rstrip_idem.
Qed.

Lemma rstrip_all_space (s r : pystr) :
  forallb isspace r = true -> rstrip (s ++ r) = rstrip s.
Proof.
  intros H. unfold rstrip. rewrite rev_app_distr, lstrip_all_space; [reflexivity|].
  rewrite forallb_forall in *. intros x Hx. apply H. now apply in_rev.
Qed.

Lemma lstrip_nil_all_space (s : pystr) :
  forallb isspace s = true -> lstrip s = [].
Proof.
  intros H. rewrite <- (app_nil_r s). now rewrite lstrip_all_space.
Qed.

Lemma lstrip_app (c r : pystr) :
  lstrip (c ++ r) = match lstrip c with [] => lstrip r | _ :: _ => lstrip c ++ r end.
Proof.
  induction c as [|x c IH]; simpl.
  - now destruct (lstrip r).
  - destruct (isspace x); [exact IH | reflexivity].
Qed.

(** Whitespace around a text does not survive [strip]. *)
Lemma strip_surrounded (l c r : pystr) :
  forallb isspace l = true -> forallb isspace r = true ->
  strip (l ++ c ++ r) = strip c.
Proof.
  intros Hl Hr. unfold strip. rewrite lstrip_all_space by assumption.
  rewrite lstrip_app. destruct (lstrip c) as [|x t] eqn:E.
  - now rewrite lstrip_nil_all_space.
  - now rewrite rstrip_all_space.
Qed.

(** *** Uppercasing *)

Example upper_cyrillic : upper [1078; 1091; 1082]%N = [1046; 1059; 1050]%N.
Proof. vm_compute. reflexivity. Qed.

Example upper_micro_mu : upper_cp 181 = [924%N] /\ upper_cp 956 = [924%N].
Proof. vm_compute. split; reflexivity. Qed.

Lemma upper_table_checked : forallb upper_entry_ok upper_table = true.
Proof. vm_compute. reflexivity. Qed.

Lemma assoc_in (c : N) (t : list (N * list N)) (u : list N) :
  assoc c t = Some u -> In (c, u) t.
Proof.
  induction t as [|[k v] t IH]; simpl; [discriminate|].
  destruct (N.eqb_spec c k) as [->|_].
  - intros [= ->]. now left.
  - destruct (c <? k)%N; [discriminate|]. intros H. right. now apply IH.
Qed.

(** A code point has no entry and is its own uppercase, or it has one. *)
Lemma upper_cp_entry (c : N) :
  upper_cp c = [c] \/ In (c, upper_cp c) upper_table.
Proof.
  unfold upper_cp. destruct (assoc c upper_table) as [u|] eqn:E.
  - right. now apply assoc_in.
  - now left.
Qed.

Lemma upper_entry (k : N) (u : list N) :
  In (k, u) upper_table ->
  isspace k = false /\ u <> []
  /\ (forall d, In d u -> isspace d = false /\ upper_cp d = [d])
  /\ upper_cp k = u.
Proof.
  intros H. pose proof upper_table_checked as C.
  rewrite forallb_forall in C. specialize (C _ H). unfold upper_entry_ok in C.
  apply andb_true_iff in C as [C Ck]. apply andb_true_iff in C as [C Cu].
  apply andb_true_iff in C as [Cs Cn].
  split; [now apply negb_true_iff|].
  split; [intros ->; discriminate Cn|]. split.
  - intros d Hd. rewrite forallb_forall in Cu. specialize (Cu d Hd).
    apply andb_true_iff in Cu as [Cd Ca]. split; [now apply negb_true_iff|].
    unfold upper_cp. now destruct (assoc d upper_table).
  - unfold upper_cp. destruct (assoc k upper_table) as [u'|]; [|discriminate].
    now apply eqb_eq.
Qed.

Lemma upper_cp_space (c : N) : isspace c = true -> upper_cp c = [c].
Proof.
  intros H. destruct (upper_cp_entry c) as [E|E]; [exact E|].
  apply upper_entry in E as (Hs & _). congruence.
Qed.

(** The uppercase of a code point that is no whitespace is a non-empty
    text without whitespace. *)
Lemma upper_cp_nonspace (c : N) :
  isspace c = false ->
  upper_cp c <> [] /\ forall d, In d (upper_cp c) -> isspace d = false.
Proof.
  intros H. destruct (upper_cp_entry c) as [E|E].
  - rewrite E. split; [discriminate|]. intros d [<-|[]]. exact H.
  - apply upper_entry in E as (_ & Hn & Hu & _). split; [exact Hn|].
    intros d Hd. now apply Hu.
Qed.

(** The code points of an uppercase are their own uppercase. *)
Lemma upper_cp_fixed (c d : N) : In d (upper_cp c) -> upper_cp d = [d].
Proof.
  intros Hd. destruct (upper_cp_entry c) as [E|E].
  - rewrite E in Hd. destruct Hd as [<-|[]]. exact E.
  - apply upper_entry in E as (_ & _ & Hu & _). now apply Hu.
Qed.

Lemma flat_map_fixed (g : N -> list N) (l : list N) :
  (forall d, In d l -> g d = [d]) -> flat_map g l = l.
Proof.
  induction l as [|d l IH]; simpl; intros H; [reflexivity|].
  rewrite (H d (or_introl eq_refl)), IH; [reflexivity|].
  intros x Hx. apply H. now right.
Qed.

Lemma upper_cp_idem (c : N) : upper (upper_cp c) = upper_cp c.
Proof. apply flat_map_fixed. intros d. apply upper_cp_fixed. Qed.

Lemma upper_app (s t : pystr) : upper (s ++ t) = upper s ++ upper t.
Proof. apply flat_map_app. Qed.

Lemma upper_idem (s : pystr) : upper (upper s) = upper s.
Proof.
  induction s as [|c s IH]; [reflexivity|].
  change (upper (c :: s)) with (upper_cp c ++ upper s).
  now rewrite upper_app, upper_cp_idem, IH.
Qed.

Section StripFlatMap.

(** A mapping of code points that keeps whitespace and makes of any other
    code point a text that starts with no whitespace. *)
Variable g : N -> list N.
Hypothesis g_space : forall c, isspace c = true -> g c = [c].
Hypothesis g_nonspace :
  forall c, isspace c = false -> exists d t, g c = d :: t /\ isspace d = false.

Lemma lstrip_flat_map (s : pystr) :
  lstrip (flat_map g s) = flat_map g (lstrip s).
Proof.
  induction s as [|c s IH]; [reflexivity|].
  simpl flat_map at 1. simpl lstrip at 2. destruct (isspace c) eqn:Hc.
  - rewrite (g_space c Hc). simpl. now rewrite Hc.
  - destruct (g_nonspace c Hc) as (d & t & E & Hd).
    simpl flat_map. rewrite E. simpl. now rewrite Hd.
Qed.

End StripFlatMap.

Lemma rev_flat_map (g : N -> list N) (s : pystr) :
  rev (flat_map g s) = flat_map (fun c => rev (g c)) (rev s).
Proof.
  induction s as [|c s IH]; [reflexivity|].
  simpl. rewrite rev_app_distr, flat_map_app, IH. simpl.
  now rewrite app_nil_r.
Qed.

Lemma lstrip_upper (s : pystr) : lstrip (upper s) = upper (lstrip s).
Proof.
  apply lstrip_flat_map.
  - apply upper_cp_space.
  - intros c Hc. destruct (upper_cp_nonspace c Hc) as [Hn Hd].
    destruct (upper_cp c) as [|d t]; [now elim Hn|].
    exists d, t. split; [reflexivity|]. apply Hd. now left.
Qed.

Lemma rstrip_upper (s : pystr) : rstrip (upper s) = upper (rstrip s).
Proof.
  unfold rstrip, upper. rewrite rev_flat_map, lstrip_flat_map.
  - rewrite rev_flat_map. apply flat_map_ext. intros c. apply rev_involutive.
  - intros c Hc. now rewrite (upper_cp_space c Hc).
  - intros c Hc. destruct (upper_cp_nonspace c Hc) as [Hn Hd].
    destruct (rev (upper_cp c)) as [|d t] eqn:E.
    + apply (f_equal (@rev N)) in E. rewrite rev_involutive in E. now elim Hn.
    + exists d, t. split; [reflexivity|]. apply Hd, in_rev. rewrite E. now left.
Qed.

Lemma strip_upper (s : pystr) : strip (upper s) = upper (strip s).
Proof. unfold strip. now rewrite lstrip_upper, rstrip_upper. Qed.

Lemma normalize_idem (s : pystr) : normalize (normalize s) = normalize s.
Proof.
  unfold normalize. now rewrite strip_upper, strip_idem, upper_idem.
Qed.

(** *** Letters in either case *)

Example same_letters_abc123 : same_letters (str "abc123") (str "ABC123").
Proof. same_letters_of_texts. Qed.

Example same_letters_cyrillic :
  same_letters [1078; 1091; 1082]%N [1046; 1059; 1050]%N.
Proof. same_letters_of_texts. Qed.

Example same_letters_sharp_s :
  same_letters [115; 116; 114; 97; 223; 101]%N (str "STRASSE").
Proof.
  apply (upper_right 115 _ (str "TRASSE")), (upper_right 116 _ (str "RASSE")),
        (upper_right 114 _ (str "ASSE")), (upper_right 97 _ (str "SSE")),
        (upper_right 223 _ (str "E")), (upper_right 101 _ []), same_nil.
Qed.

Lemma same_letters_upper (s t : pystr) :
  same_letters s t -> upper s = upper t.
Proof.
  induction 1 as [|x s t _ IH|x s t _ IH|x s t _ IH].
  - reflexivity.
  - change (upper_cp x ++ upper s = upper_cp x ++ upper t). now rewrite IH.
  - rewrite upper_app, upper_cp_idem.
    change (upper_cp x ++ upper s = upper_cp x ++ upper t). now rewrite IH.
  - rewrite upper_app, upper_cp_idem.
    change (upper_cp x ++ upper s = upper_cp x ++ upper t). now rewrite IH.
Qed.

Lemma upper_all_space (l : pystr) : forallb isspace l = true -> upper l = l.
Proof.
  intros H. apply flat_map_fixed. intros d Hd. apply upper_cp_space.
  rewrite forallb_forall in H. now apply H.
Qed.

(** Identifiers that differ only by surrounding whitespace or case have
    one normal form. *)
Lemma normalize_differ_only_by_ws_and_case (a b : pystr) :
  differ_only_by_ws_and_case a b -> normalize a = normalize b.
Proof.
  intros (la & ca & ra & lb & cb & rb & -> & -> & Hla & Hra & Hlb & Hrb & Hc).
  unfold normalize. rewrite <- !strip_upper, !upper_app.
  rewrite (upper_all_space la Hla), (upper_all_space ra Hra).
  rewrite (upper_all_space lb Hlb), (upper_all_space rb Hrb).
  rewrite !strip_surrounded by assumption.
  now rewrite (same_letters_upper ca cb Hc).
Qed.

(** ** Series and DataFrames *)

Lemma set_col_get_col (c : column) (f : cell -> cell) (df : DataFrame) :
  set_col c (map f (get_col c df)) df
  = map (fun r => set_field c (f (field c r)) r) df.
Proof.
  unfold get_col. induction df as [|r df IH]; simpl; [reflexivity|].
  now rewrite IH.
Qed.

(** On a column that is no object column the two string operations change
    nothing: the test of line 70 only spares work. *)
Lemma not_object_unchanged (s : Series) :
  dtype_is_object s = false -> str_upper (str_strip s) = s.
Proof.
  induction s as [|c s IH]; simpl; [reflexivity|].
  intros H. apply orb_false_iff in H as [Hc Hs].
  destruct c; [discriminate|]. simpl. f_equal. now apply IH.
Qed.

Lemma set_col_same (c : column) (df : DataFrame) :
  set_col c (get_col c df) df = df.
Proof.
  unfold get_col. induction df as [|r df IH]; simpl; [reflexivity|].
  rewrite IH. now destruct r, c.
Qed.

Lemma loc_series_ne (f g : MRow -> cell) (J : MergedFrame) :
  loc (series_ne (map f J) (map g J)) J
  = filter (fun r => cell_ne (f r) (g r)) J.
Proof.
  induction J as [|r J IH]; simpl; [reflexivity|].
  now rewrite IH.
Qed.

Lemma loc_not_series_ne (f g : MRow -> cell) (J : MergedFrame) :
  loc (map negb (series_ne (map f J) (map g J))) J
  = filter (fun r => negb (cell_ne (f r) (g r))) J.
Proof.
  induction J as [|r J IH]; simpl; [reflexivity|].
  rewrite IH. now destruct (cell_ne (f r) (g r)).
Qed.

(** ** The comparator, step by step *)

Lemma bind_apply (A B : Type) (m : M A) (k : A -> M B) (s : store) :
  bind m k s = let (a, s') := m s in k a s'.
Proof. reflexivity. Qed.

(** Lines 70 and 71 on one column of one DataFrame. *)
Lemma upper_strip_column (r : df_ref) (col : column) (st : store) :
  (s <- getitem r col ;;
   if dtype_is_object s
   then setitem r col (str_upper (str_strip s))
   else ret tt) st
  = (tt, update r (map (fun row =>
           set_field col (option_map upper (option_map strip (field col row))) row)) st).
Proof.
  assert (E : forall df,
    set_col col (str_upper (str_strip (get_col col df))) df
    = map (fun row =>
        set_field col (option_map upper (option_map strip (field col row))) row) df).
  { intros df. unfold str_upper, str_strip. rewrite map_map.
    apply (set_col_get_col col (fun c => option_map upper (option_map strip c))). }
  destruct st as [a d]. unfold bind, getitem, read, ret. destruct r; simpl.
  - destruct (dtype_is_object (get_col col a)) eqn:Hd.
    + unfold setitem, bind, read, write; simpl. now rewrite E.
    + unfold ret. rewrite <- E, (not_object_unchanged _ Hd), set_col_same.
      reflexivity.
  - destruct (dtype_is_object (get_col col d)) eqn:Hd.
    + unfold setitem, bind, read, write; simpl. now rewrite E.
    + unfold ret. rewrite <- E, (not_object_unchanged _ Hd), set_col_same.
      reflexivity.
Qed.

(** Line 68 on one DataFrame. *)
Lemma strip_astype_column (df : DataFrame) :
  set_col col_PROTOCOLO (str_strip (astype_str (get_col col_PROTOCOLO df))) df
  = map (fun r =>
      mkRow (option_map strip
               (match r_PROTOCOLO r with
                | Some t => Some t
                | None => Some (str "nan")
                end))
            (r_STATUS r)) df.
Proof.
  unfold str_strip, astype_str. rewrite map_map.
  apply (set_col_get_col col_PROTOCOLO
           (fun c => option_map strip
              (match c with Some t => Some t | None => Some (str "nan") end))).
Qed.

(** The body of the loop of line 67 on one DataFrame. *)
Lemma clean_frame (r : df_ref) (st : store) :
  (p <- getitem r col_PROTOCOLO ;;
   setitem r col_PROTOCOLO (str_strip (astype_str p)) ;;
   for_each columns (fun col =>
     s <- getitem r col ;;
     if dtype_is_object s
     then setitem r col (str_upper (str_strip s))
     else ret tt)) st
  = (tt, update r (map clean_row) st).
Proof.
  rewrite bind_apply. unfold getitem at 1. rewrite bind_apply.
  unfold read at 1, ret at 1.
  rewrite bind_apply. unfold setitem at 1. rewrite bind_apply.
  unfold read at 1, write at 1.
  cbn [for_each columns]. rewrite bind_apply, upper_strip_column.
  rewrite bind_apply, upper_strip_column. unfold ret. f_equal.
  destruct st as [a d], r; cbn [update df_algar df_data]; f_equal;
    rewrite strip_astype_column, !map_map; apply map_ext; intros [p s];
    reflexivity.
Qed.

Lemma clean_row_dropna (df : DataFrame) :
  map clean_row (dropna_PROTOCOLO df) = cleaned df.
Proof.
  unfold cleaned, dropna_PROTOCOLO. apply map_ext_in. intros [p s] Hin.
  apply filter_In in Hin as [_ Hp]. simpl in Hp.
  destruct p as [p|]; [|discriminate].
  unfold clean_row, normalize_row, normalize; simpl.
  rewrite strip_idem. now destruct s.
Qed.

(** The call, in one equation: the outcome sets are the two halves of the
    joined records, and the two DataFrames of the caller are left cleaned. *)
Lemma run_spec (a d : DataFrame) :
  let J := dropna_STATUS (merge (cleaned a) (cleaned d)) in
  run a d = ((filter is_divergent J, filter (fun r => negb (is_divergent r)) J),
             mkStore (cleaned a) (cleaned d)).
Proof.
  intros J. unfold run, processar_e_comparar.
  rewrite bind_apply. unfold dropna_inplace at 1. rewrite bind_apply.
  unfold read at 1, write at 1.
  rewrite bind_apply. unfold dropna_inplace at 1. rewrite bind_apply.
  unfold read at 1, write at 1. cbn [df_algar df_data].
  rewrite bind_apply. cbn [for_each].
  rewrite bind_apply, clean_frame, bind_apply, clean_frame.
  unfold ret at 1. cbn [update df_algar df_data].
  unfold bind, read, ret. cbn [df_algar df_data].
  rewrite !clean_row_dropna. fold J.
  unfold replace. rewrite !map_map.
  rewrite (loc_series_ne (fun r => replace_cell FECHADO INSTALADO (STATUS_ALGAR r))
                         (fun r => replace_cell FECHADO INSTALADO (STATUS_AG r))).
  rewrite (loc_not_series_ne (fun r => replace_cell FECHADO INSTALADO (STATUS_ALGAR r))
                             (fun r => replace_cell FECHADO INSTALADO (STATUS_AG r))).
  reflexivity.
Qed.

(** The end-to-end example of the specification. *)
Example end_to_end :
  run [row "001" "FECHADO"; row "002" "PENDENTE"; row "003" "INSTALADO"]
      [row "001" "INSTALADO"; row "002" "PENDENTE"; row "004" "CANCELADO"]
  = (([], [mrow "001" "FECHADO" "INSTALADO"; mrow "002" "PENDENTE" "PENDENTE"]),
     mkStore [row "001" "FECHADO"; row "002" "PENDENTE"; row "003" "INSTALADO"]
             [row "001" "INSTALADO"; row "002" "PENDENTE"; row "004" "CANCELADO"]).
Proof. vm_compute. reflexivity. Qed.

(** The micro sign of Latin-1 and the Greek letter mu have one uppercase. *)
Example micro_sign_joins_mu :
  fst (run [mkRow (Some [181; 49]%N) (Some (str "ok"))]
           [mkRow (Some [956; 49]%N) (Some (str "OK"))])
  = ([], [mkMRow (Some [924; 49]%N) (Some (str "OK")) (Some (str "OK"))]).
Proof. vm_compute. reflexivity. Qed.

Example installed_against_pending :
  fst (run [row "9" "INSTALADO"] [row "9" "PENDENTE"])
  = ([mrow "9" "INSTALADO" "PENDENTE"], []).
Proof. vm_compute. reflexivity. Qed.

Lemma store_after_spec (a d : DataFrame) :
  store_after a d = mkStore (cleaned a) (cleaned d).
Proof. unfold store_after. now rewrite run_spec. Qed.

Lemma df_merged_spec (a d : DataFrame) :
  df_merged a d = merge (cleaned a) (cleaned d).
Proof. unfold df_merged. now rewrite store_after_spec. Qed.

Lemma df_divergente_spec (a d : DataFrame) :
  df_divergente a d = filter is_divergent (joined a d).
Proof.
  unfold df_divergente, joined. now rewrite run_spec, df_merged_spec.
Qed.

Lemma df_igual_spec (a d : DataFrame) :
  df_igual a d = filter (fun r => negb (is_divergent r)) (joined a d).
Proof.
  unfold df_igual, joined. now rewrite run_spec, df_merged_spec.
Qed.

(** ** The join *)

Lemma key_eqb_eq (a b : cell) : key_eqb a b = true <-> a = b.
Proof.
  destruct a as [x|], b as [y|]; simpl; try (split; congruence).
  rewrite eqb_eq. split; congruence.
Qed.

Lemma in_merge (l r : DataFrame) (m : MRow) :
  In m (merge l r) <->
  exists x y, In x l /\ In y r /\ r_PROTOCOLO x = r_PROTOCOLO y /\
              m = mkMRow (r_PROTOCOLO x) (r_STATUS x) (r_STATUS y).
Proof.
  unfold merge. rewrite in_flat_map. split.
  - intros (x & Hx & Hm). apply in_map_iff in Hm as (y & <- & Hy).
    apply filter_In in Hy as [Hy Hk]. apply key_eqb_eq in Hk.
    now exists x, y.
  - intros (x & y & Hx & Hy & Hk & ->). exists x. split; [assumption|].
    apply in_map_iff. exists y. split; [reflexivity|].
    apply filter_In. split; [assumption|]. now apply key_eqb_eq.
Qed.

Lemma in_cleaned (df : DataFrame) (r : Row) :
  In r (cleaned df) <->
  exists x, In x df /\ r_PROTOCOLO x <> None /\ r = normalize_row x.
Proof.
  unfold cleaned, dropna_PROTOCOLO. rewrite in_map_iff. split.
  - intros (x & <- & Hx). apply filter_In in Hx as [Hx Hp].
    exists x. repeat split; try assumption.
    intros E. rewrite E in Hp. discriminate.
  - intros (x & Hx & Hp & ->). exists x. split; [reflexivity|].
    apply filter_In. split; [assumption|].
    now destruct (r_PROTOCOLO x).
Qed.

(** The joined records have a status on both sides. *)
Lemma in_joined (a d : DataFrame) (m : MRow) :
  In m (joined a d) <->
  In m (df_merged a d) /\ STATUS_ALGAR m <> None /\ STATUS_AG m <> None.
Proof.
  unfold joined, dropna_STATUS. rewrite filter_In, andb_true_iff.
  unfold notna. destruct (STATUS_ALGAR m), (STATUS_AG m); simpl;
    intuition congruence.
Qed.

Lemma status_norm_synonym (s : pystr) : status_norm (Some s) = Some (synonym s).
Proof.
  unfold status_norm, replace_cell, synonym. now destruct (eqb s FECHADO).
Qed.

Lemma is_divergent_synonym (p : cell) (sa sd : pystr) :
  is_divergent (mkMRow p (Some sa) (Some sd)) = false <-> synonym sa = synonym sd.
Proof.
  unfold is_divergent; cbn [STATUS_ALGAR STATUS_AG].
  rewrite !status_norm_synonym. unfold cell_ne.
  rewrite negb_false_iff. apply eqb_eq.
Qed.

(** An outcome row is a joined record, unchanged. *)
Lemma outcome_in_joined (a d : DataFrame) (m : MRow) :
  In m (df_divergente a d ++ df_igual a d) -> In m (joined a d).
Proof.
  rewrite df_divergente_spec, df_igual_spec, in_app_iff, !filter_In. tauto.
Qed.

(** A joined record goes to one outcome set or to the other. *)
Lemma joined_in_outcome (a d : DataFrame) (m : MRow) :
  In m (joined a d) -> In m (df_divergente a d ++ df_igual a d).
Proof.
  rewrite df_divergente_spec, df_igual_spec, in_app_iff, !filter_In.
  destruct (is_divergent m); simpl; tauto.
Qed.

(** The rows of [df_merged] are the pairs of an input row of each side with
    an identifier, the two identifiers having one normal form; the texts
    are the trimmed and uppercased texts of the inputs. *)
Lemma in_df_merged (a d : DataFrame) (m : MRow) :
  In m (df_merged a d) <->
  exists x y, In x a /\ In y d /\
    r_PROTOCOLO x <> None /\ r_PROTOCOLO y <> None /\
    option_map normalize (r_PROTOCOLO x) = option_map normalize (r_PROTOCOLO y) /\
    m = mkMRow (option_map normalize (r_PROTOCOLO x))
               (option_map normalize (r_STATUS x))
               (option_map normalize (r_STATUS y)).
Proof.
  rewrite df_merged_spec, in_merge. split.
  - intros (x' & y' & Hx & Hy & Hk & ->).
    apply in_cleaned in Hx as (x & Hx & Hpx & ->).
    apply in_cleaned in Hy as (y & Hy & Hpy & ->).
    now exists x, y.
  - intros (x & y & Hx & Hy & Hpx & Hpy & Hk & ->).
    exists (normalize_row x), (normalize_row y).
    repeat split; try assumption; apply in_cleaned; eauto.
Qed.

Lemma filter_partition (A : Type) (f : A -> bool) (l : list A) :
  Permutation (filter f l ++ filter (fun x => negb (f x)) l) l.
Proof.
  induction l as [|x l IH]; simpl; [constructor|].
  destruct (f x); simpl.
  - now constructor.
  - symmetry. apply Permutation_cons_app. now symmetry.
Qed.

(** The two outcome sets are, together, the joined records. *)
Lemma outcomes_permutation (a d : DataFrame) :
  Permutation (df_divergente a d ++ df_igual a d) (joined a d).
Proof. rewrite df_divergente_spec, df_igual_spec. apply filter_partition. Qed.

(** ** The status rule *)

(** C1. Every joined record is classified by comparing its two statuses
    after the rewriting of "FECHADO" to "INSTALADO" on each side: it is in
    the equal set when the rewritten statuses are the same and in the
    divergent set when they differ.  A record with the carrier status
    "FECHADO" and the internal status "INSTALADO" is equal.  The record in
    the outcome set is the joined record itself: its statuses are the
    trimmed and uppercased statuses of the two input rows, not rewritten. *)
Theorem C1_synonym_rule (a d : DataFrame) (r : MRow) :
  In r (joined a d) ->
  exists p sa sd,
    r = mkMRow p (Some sa) (Some sd) /\
    (In r (df_igual a d) <-> synonym sa = synonym sd) /\
    (In r (df_divergente a d) <-> synonym sa <> synonym sd) /\
    (sa = FECHADO -> sd = INSTALADO ->
     In r (df_igual a d) /\ ~ In r (df_divergente a d)) /\
    (exists x y, In x a /\ In y d /\
       p = option_map normalize (r_PROTOCOLO x) /\
       Some sa = option_map normalize (r_STATUS x) /\
       Some sd = option_map normalize (r_STATUS y)).
Proof.
  intros Hj. pose proof Hj as Hj'.
  apply in_joined in Hj' as (Hm & Ha & Hd).
  destruct r as [p [sa|] [sd|]]; simpl in Ha, Hd; try congruence.
  exists p, sa, sd.
  assert (Hi : In (mkMRow p (Some sa) (Some sd)) (df_igual a d)
               <-> synonym sa = synonym sd).
  { rewrite df_igual_spec, filter_In, negb_true_iff, is_divergent_synonym.
    tauto. }
  assert (Hv : In (mkMRow p (Some sa) (Some sd)) (df_divergente a d)
               <-> synonym sa <> synonym sd).
  { rewrite df_divergente_spec, filter_In, <- is_divergent_synonym with (p := p).
    destruct (is_divergent (mkMRow p (Some sa) (Some sd))); intuition congruence. }
  split; [reflexivity|]. split; [exact Hi|]. split; [exact Hv|]. split.
  - intros -> ->. rewrite Hi, Hv. split; [reflexivity|]. intros H. now apply H.
  - apply in_df_merged in Hm as (x & y & Hx & Hy & _ & _ & _ & E).
    exists x, y. injection E as -> -> ->. now repeat split.
Qed.

Lemma C1_synonym_rule_witness :
  let a := [row "7" " fechado "] in
  let d := [row "7" "Instalado"] in
  In (mrow "7" "FECHADO" "INSTALADO") (joined a d)
  /\ In (mrow "7" "FECHADO" "INSTALADO") (df_igual a d)
  /\ ~ In (mrow "7" "FECHADO" "INSTALADO") (df_divergente a d).
Proof.
  intros a d.
  assert (Hj : In (mrow "7" "FECHADO" "INSTALADO") (joined a d))
    by (vm_compute; left; reflexivity).
  split; [exact Hj|].
  destruct (C1_synonym_rule a d _ Hj) as (p & sa & sd & E & _ & _ & H & _).
  injection E as _ <- <-. apply H; reflexivity.
Defined.

(** ** The partition *)

(** C2, as the code has it. The two outcome sets share no record, together
    they are the joined records, and their sizes add up to the number of
    inner-joined records whose status is not missing (NaN) on either side.
    A status that is the empty text is not missing: such a record is
    counted and classified. *)
Theorem C2_partition (a d : DataFrame) :
  (forall r, In r (df_divergente a d) -> ~ In r (df_igual a d))
  /\ Permutation (df_divergente a d ++ df_igual a d) (joined a d)
  /\ length (df_divergente a d) + length (df_igual a d)
     = length (filter (fun r => notna (STATUS_ALGAR r) && notna (STATUS_AG r))
                      (df_merged a d)).
Proof.
  pose proof (outcomes_permutation a d) as P.
  split; [|split].
  - intros r. rewrite df_divergente_spec, df_igual_spec, !filter_In.
    intros [_ H1] [_ H2]. rewrite H1 in H2. discriminate.
  - exact P.
  - rewrite <- length_app. apply Permutation_length in P. exact P.
Qed.

(** The statement of C2 with the non-empty statuses fails on a status of
    whitespace alone: the joined record has an empty carrier status and is
    classified all the same. *)
Lemma C2_counterexample :
  let a := [row "1" " "] in
  let d := [row "1" "X"] in
  ~ (length (df_divergente a d) + length (df_igual a d)
     = length (filter (fun r => negb (is_empty (STATUS_ALGAR r))
                                && negb (is_empty (STATUS_AG r)))
                      (df_merged a d))).
Proof. vm_compute. discriminate. Qed.

(** ** Missing statuses *)

(** C3, as the code has it. A joined record in which a status is missing
    (NaN) on either side is in neither outcome set. *)
Theorem C3_missing_status_excluded (a d : DataFrame) (r : MRow) :
  In r (df_merged a d) ->
  STATUS_ALGAR r = None \/ STATUS_AG r = None ->
  ~ In r (df_divergente a d) /\ ~ In r (df_igual a d).
Proof.
  intros _ Hna.
  assert (H : ~ In r (joined a d)).
  { rewrite in_joined. intros (_ & Ha & Hd). destruct Hna; contradiction. }
  split; intros Hin; apply H, outcome_in_joined, in_app_iff; auto.
Qed.

Lemma C3_missing_status_excluded_witness :
  let a := [mkRow (Some (str "1")) None] in
  let d := [row "1" "X"] in
  let r := mkMRow (Some (str "1")) None (Some (str "X")) in
  In r (df_merged a d)
  /\ ~ In r (df_divergente a d) /\ ~ In r (df_igual a d).
Proof.
  intros a d r.
  assert (Hm : In r (df_merged a d)) by (vm_compute; left; reflexivity).
  split; [exact Hm|].
  apply (C3_missing_status_excluded a d r Hm). left. reflexivity.
Defined.

(** The statement of C3 with the empty statuses fails on an internal status
    of whitespace alone: it is the empty text after the trimming, and the
    record is in the divergent set. *)
Lemma C3_counterexample :
  let a := [row "5" "ok"] in
  let d := [row "5" "  "] in
  ~ (forall r, In r (df_merged a d) ->
       is_empty (STATUS_ALGAR r) || is_empty (STATUS_AG r) = true ->
       ~ In r (df_divergente a d) /\ ~ In r (df_igual a d)).
Proof.
  intros a d H.
  destruct (H (mrow "5" "OK" "")) as [Hdiv _].
  - vm_compute. left. reflexivity.
  - reflexivity.
  - apply Hdiv. vm_compute. left. reflexivity.
Qed.

(** ** Missing identifiers *)



Lemma cleaned_has_identifier (df : DataFrame) (r : Row) :
  In r (cleaned df) -> r_PROTOCOLO r <> None.
Proof.
  intros H. apply in_cleaned in H as (x & _ & Hp & ->). simpl.
  now destruct (r_PROTOCOLO x).
Qed.



(** ** Matching of identifiers *)



(** ** The inner join *)

Lemma count_id_zero (k : pystr) (df : DataFrame) (r : Row) :
  count_id k df = 0 -> In r df -> has_id k r = false.
Proof.
  unfold count_id. intros H Hr. apply length_zero_iff_nil in H.
  destruct (has_id k r) eqn:E; [|reflexivity].
  assert (Hin : In r (filter (has_id k) df)) by (apply filter_In; auto).
  rewrite H in Hin. destruct Hin.
Qed.

(** C6. An identifier that one of the two record sets does not have gives
    no joined record, and no record of the equal set or of the divergent
    set has it. *)
Theorem C6_inner_join (a d : DataFrame) (k : pystr) :
  count_id k a = 0 \/ count_id k d = 0 ->
  (forall m, In m (df_merged a d) -> PROTOCOLO m <> Some k)
  /\ (forall m, In m (df_divergente a d) -> PROTOCOLO m <> Some k)
  /\ (forall m, In m (df_igual a d) -> PROTOCOLO m <> Some k).
Proof.
  intros H0.
  assert (Hm : forall m, In m (df_merged a d) -> PROTOCOLO m <> Some k).
  { intros m Hm Hk.
    apply in_df_merged in Hm as (x & y & Hx & Hy & _ & _ & Hxy & ->).
    simpl in Hk. destruct H0 as [H0|H0].
    - apply (count_id_zero k a x H0) in Hx. unfold has_id in Hx.
      rewrite Hk in Hx. simpl in Hx. now rewrite eqb_refl in Hx.
    - apply (count_id_zero k d y H0) in Hy. unfold has_id in Hy.
      rewrite <- Hxy, Hk in Hy. simpl in Hy. now rewrite eqb_refl in Hy. }
  split; [exact Hm|].
  split; intros m Hin; apply Hm;
    assert (Hj : In m (joined a d))
      by (apply outcome_in_joined, in_app_iff; auto);
    now apply in_joined in Hj.
Qed.

Lemma C6_inner_join_witness :
  let a := [row "001" "FECHADO"; row "002" "PENDENTE"; row "003" "INSTALADO"] in
  let d := [row "001" "INSTALADO"; row "002" "PENDENTE"; row "004" "CANCELADO"] in
  count_id (str "003") d = 0
  /\ (forall m, In m (df_igual a d) -> PROTOCOLO m <> Some (str "003")).
Proof.
  intros a d. split; [reflexivity|].
  apply (C6_inner_join a d (str "003")). right. reflexivity.
Defined.

(** ** Running the comparison again *)

Lemma cleaned_idem (df : DataFrame) : cleaned (cleaned df) = cleaned df.
Proof.
  unfold cleaned at 1.
  assert (E : dropna_PROTOCOLO (cleaned df) = cleaned df).
  { unfold dropna_PROTOCOLO. apply forallb_filter_id, forallb_forall.
    intros r Hr. apply cleaned_has_identifier in Hr.
    now destruct (r_PROTOCOLO r). }
  rewrite E. unfold cleaned. rewrite map_map. apply map_ext.
  intros [p s]. unfold normalize_row; simpl.
  destruct p, s; simpl; now rewrite ?normalize_idem.
Qed.

(** C7. A second run of the comparison on the two record sets, as the
    first run has left them, gives the same divergent set and the same
    equal set, hence the same counts, and leaves the record sets as they
    are.  (A run on equal copies of the inputs gives equal results: the
    comparator is a function of its two inputs.) *)
Theorem C7_idempotent (a d : DataFrame) :
  let st := store_after a d in
  df_divergente (df_algar st) (df_data st) = df_divergente a d
  /\ df_igual (df_algar st) (df_data st) = df_igual a d
  /\ length (df_divergente (df_algar st) (df_data st)) = length (df_divergente a d)
  /\ length (df_igual (df_algar st) (df_data st)) = length (df_igual a d)
  /\ store_after (df_algar st) (df_data st) = st.
Proof.
  intros st. subst st. rewrite store_after_spec. cbn [df_algar df_data].
  assert (E : run (cleaned a) (cleaned d)
              = (fst (run a d), mkStore (cleaned a) (cleaned d))).
  { rewrite !run_spec. cbn [fst]. now rewrite !cleaned_idem. }
  unfold df_divergente, df_igual, store_after. rewrite E. cbn [fst snd].
  repeat split; reflexivity.
Qed.

(** ** The inputs after the call *)

(** C9. The comparator changes the two record sets of its caller in
    place: after the call each holds its rows with an identifier only, and
    in every row the identifier and the status are replaced by their
    trimmed and uppercased text.  The record sets are thus not preserved in
    general, as the example shows. *)
Theorem C9_inputs_mutated :
  (forall a d,
     df_algar (store_after a d)
     = map normalize_row (filter (fun r => notna (r_PROTOCOLO r)) a)
     /\ df_data (store_after a d)
        = map normalize_row (filter (fun r => notna (r_PROTOCOLO r)) d))
  /\ (let a := [mkRow None (Some (str "x")); row " ab " "Fechado"] in
      let d := [row "ab" " instalado"] in
      store_after a d = mkStore [row "AB" "FECHADO"] [row "AB" "INSTALADO"]
      /\ store_after a d <> mkStore a d).
Proof.
  split.
  - intros a d. rewrite store_after_spec. split; reflexivity.
  - intros a d. assert (E : store_after a d
                            = mkStore [row "AB" "FECHADO"] [row "AB" "INSTALADO"])
      by (vm_compute; reflexivity).
    split; [exact E|]. rewrite E. discriminate.
Qed.

(** ** Repeated identifiers *)

Section MergeCount.

Variable k : pystr.
Variables qa qd : cell -> bool.

(** The rows that one left row contributes to the join. *)
Lemma merge_count_row (l : Row) (right : DataFrame) :
  length (filter (on_merged k qa qd)
            (map (fun r => mkMRow (r_PROTOCOLO l) (r_STATUS l) (r_STATUS r))
               (filter (fun r => key_eqb (r_PROTOCOLO l) (r_PROTOCOLO r)) right)))
  = if on_side k qa l then length (filter (on_side k qd) right) else 0.
Proof.
  induction right as [|y right IH]; simpl.
  - now destruct (on_side k qa l).
  - destruct (key_eqb (r_PROTOCOLO l) (r_PROTOCOLO y)) eqn:Ek.
    + apply key_eqb_eq in Ek. simpl.
      replace (on_merged k qa qd
                 (mkMRow (r_PROTOCOLO l) (r_STATUS l) (r_STATUS y)))
        with (on_side k qa l && qd (r_STATUS y)) by reflexivity.
      replace (on_side k qd y)
        with (key_eqb (r_PROTOCOLO l) (Some k) && qd (r_STATUS y))
        by (unfold on_side; now rewrite Ek).
      unfold on_side in *.
      destruct (key_eqb (r_PROTOCOLO l) (Some k)), (qa (r_STATUS l)),
        (qd (r_STATUS y)); cbn [andb length] in *; now rewrite IH.
    + rewrite IH. unfold on_side.
      destruct (key_eqb (r_PROTOCOLO l) (Some k)) eqn:El; [|reflexivity].
      destruct (qa (r_STATUS l)); [|reflexivity]. simpl.
      apply key_eqb_eq in El.
      destruct (key_eqb (r_PROTOCOLO y) (Some k)) eqn:Ey; [|reflexivity].
      apply key_eqb_eq in Ey. rewrite El, Ey in Ek. simpl in Ek.
      now rewrite eqb_refl in Ek.
Qed.

(** The join has a row for every pair of a left row and a right row with
    the identifier [k]. *)
Lemma merge_count (left right : DataFrame) :
  length (filter (on_merged k qa qd) (merge left right))
  = length (filter (on_side k qa) left) * length (filter (on_side k qd) right).
Proof.
  induction left as [|l left IH]; [reflexivity|].
  unfold merge in *. simpl flat_map.
  rewrite filter_app, length_app, IH, merge_count_row. simpl filter.
  destruct (on_side k qa l); simpl; lia.
Qed.

End MergeCount.

Lemma count_cleaned (k : pystr) (q : cell -> bool) (df : DataFrame) :
  length (filter (on_side k q) (cleaned df))
  = length (filter (fun r => has_id k r && q (option_map normalize (r_STATUS r))) df).
Proof.
  unfold cleaned, dropna_PROTOCOLO, has_id, on_side.
  induction df as [|[p s] df IH]; [reflexivity|]. simpl.
  destruct p as [p|]; simpl; [|exact IH].
  destruct (PyStr.eqb (normalize p) k && q (option_map normalize s)); simpl;
    now rewrite IH.
Qed.

Lemma count_filter_ext (A : Type) (f g : A -> bool) (l : list A) :
  (forall x, f x = g x) -> length (filter f l) = length (filter g l).
Proof. intros H. now rewrite (filter_ext f g H). Qed.

Lemma count_partition (A : Type) (p f : A -> bool) (l : list A) :
  length (filter p (filter f l)) + length (filter p (filter (fun x => negb (f x)) l))
  = length (filter p l).
Proof.
  induction l as [|x l IH]; simpl; [reflexivity|].
  destruct (f x), (p x) eqn:Hp; simpl; rewrite ?Hp; simpl; lia.
Qed.

Lemma filter_twice (A : Type) (p f : A -> bool) (l : list A) :
  filter p (filter f l) = filter (fun x => p x && f x) l.
Proof.
  induction l as [|x l IH]; simpl; [reflexivity|].
  destruct (f x), (p x) eqn:Hp; simpl; rewrite ?Hp, IH; reflexivity.
Qed.

Lemma count_joined_merged (k : pystr) (a d : DataFrame) :
  count_joined k (df_merged a d) = count_id k a * count_id k d.
Proof.
  unfold count_joined, count_id. rewrite df_merged_spec.
  pose proof (merge_count k (fun _ => true) (fun _ => true)
                (cleaned a) (cleaned d)) as H.
  pose proof (count_cleaned k (fun _ => true) a) as Ha.
  pose proof (count_cleaned k (fun _ => true) d) as Hd.
  cbv beta in Ha, Hd. rewrite Ha, Hd in H.
  rewrite (count_filter_ext MRow
             (fun m => key_eqb (PROTOCOLO m) (Some k))
             (on_merged k (fun _ => true) (fun _ => true)))
    by (intros m; unfold on_merged; now rewrite !andb_true_r).
  rewrite H.
  f_equal; apply count_filter_ext; intros r; apply andb_true_r.
Qed.

Lemma count_joined_outcomes (k : pystr) (a d : DataFrame) :
  count_joined k (df_divergente a d) + count_joined k (df_igual a d)
  = count_id_status k a * count_id_status k d.
Proof.
  unfold count_joined, count_id_status.
  rewrite df_divergente_spec, df_igual_spec, count_partition.
  unfold joined, dropna_STATUS. rewrite df_merged_spec.
  pose proof (merge_count k notna notna (cleaned a) (cleaned d)) as H.
  rewrite (count_cleaned k notna a), (count_cleaned k notna d) in H.
  rewrite filter_twice.
  rewrite (count_filter_ext MRow _ (on_merged k notna notna))
    by (intros m; unfold on_merged; now rewrite andb_assoc).
  rewrite H.
  f_equal; apply count_filter_ext; intros [p [s|]]; reflexivity.
Qed.

(** C10. An identifier that [m] rows of the carrier record set and [n]
    rows of the internal record set carry gives [m * n] joined records;
    each of them with a status on both sides is classified on its own, in
    one of the two outcome sets, so that the two counts together can exceed
    the number of rows of either input: two rows on each side with one
    identifier give four outcome records. *)
Theorem C10_repeated_identifiers :
  (forall a d k,
     count_joined k (df_merged a d) = count_id k a * count_id k d
     /\ count_joined k (df_divergente a d) + count_joined k (df_igual a d)
        = count_id_status k a * count_id_status k d)
  /\ (let a := [row "1" "X"; row "1" "Y"] in
      let d := [row "1" "X"; row "1" "Y"] in
      df_divergente a d = [mrow "1" "X" "Y"; mrow "1" "Y" "X"]
      /\ df_igual a d = [mrow "1" "X" "X"; mrow "1" "Y" "Y"]
      /\ length (df_divergente a d) + length (df_igual a d) > length a
      /\ length (df_divergente a d) + length (df_igual a d) > length d).
Proof.
  split.
  - intros a d k. split.
    + apply count_joined_merged.
    + apply count_joined_outcomes.
  - intros a d.
    assert (Ed : df_divergente a d = [mrow "1" "X" "Y"; mrow "1" "Y" "X"])
      by (vm_compute; reflexivity).
    assert (Ei : df_igual a d = [mrow "1" "X" "X"; mrow "1" "Y" "Y"])
      by (vm_compute; reflexivity).
    rewrite Ed, Ei. simpl. repeat split; lia.
Qed.

(** ** The loader *)

(** C8. When reading the CSV file raises, or reading the spreadsheet
    raises after the CSV file was read, the loader reports two messages,
    the fixed explanation and then the text of the exception, and returns
    [None] for both record sets.  In every case the two results are absent
    together or present together. *)
Theorem C8_load_failure
    (UploadedFile : Type)
    (read_csv read_excel : UploadedFile -> Exception + list (cell * cell))
    (arquivo_csv arquivo_xlsx : UploadedFile) (e : Exception) :
  read_csv arquivo_csv = inl e
  \/ (exists rows, read_csv arquivo_csv = inr rows
                   /\ read_excel arquivo_xlsx = inl e) ->
  carregar_dados_upload read_csv read_excel arquivo_csv arquivo_xlsx
  = ((None, None),
     [MSG_ERRO_LEITURA; ("Detalhe do erro: " ++ exc_str e)%string])
  /\ (forall f g,
        let r := fst (carregar_dados_upload read_csv read_excel f g) in
        (fst r = None /\ snd r = None)
        \/ (exists df_algar df_data, r = (Some df_algar, Some df_data))).
Proof.
  intros H. split.
  - unfold carregar_dados_upload, carregar_try.
    destruct H as [H|(rows & H1 & H2)].
    + now rewrite H.
    + now rewrite H1, H2.
  - intros f g r. subst r. unfold carregar_dados_upload.
    destruct (carregar_try read_csv read_excel f g) as [e'|[x y]]; simpl.
    + now left.
    + right. now exists x, y.
Qed.

Lemma C8_load_failure_witness :
  let read_csv := fun _ : string =>
    inr [(Some (str "001"), Some (str "FECHADO"))] : Exception + list (cell * cell) in
  let read_excel := fun _ : string =>
    inl (mkException "File is not a zip file") : Exception + list (cell * cell) in
  carregar_dados_upload read_csv read_excel "algar.csv"%string "data.xlsx"%string
  = ((None, None),
     [MSG_ERRO_LEITURA; "Detalhe do erro: File is not a zip file"%string]).
Proof.
  intros read_csv read_excel.
  refine (proj1 (C8_load_failure string read_csv read_excel
                   "algar.csv"%string "data.xlsx"%string
                   (mkException "File is not a zip file") _)).
  right. eexists. split; reflexivity.
Defined.

(** * Further properties *)

(** ** The comparator on its edge cases *)

Lemma merge_nil_r (left : DataFrame) : merge left [] = [].
Proof. unfold merge. induction left as [|l left IH]; simpl; auto. Qed.

Lemma cleaned_nil (df : DataFrame) :
  (forall r, In r df -> r_PROTOCOLO r = None) -> cleaned df = [].
Proof.
  intros H. unfold cleaned, dropna_PROTOCOLO.
  induction df as [|r df IH]; [reflexivity|]. simpl.
  rewrite (H r (or_introl eq_refl)). simpl. apply IH.
  intros x Hx. apply H. now right.
Qed.

(** X1. When one of the two record sets has no row with an identifier, in
    particular when it has no row at all, both outcome sets are empty. *)
Theorem X1_no_identifier_no_outcome (a d : DataFrame) :
  (forall r, In r a -> r_PROTOCOLO r = None)
  \/ (forall r, In r d -> r_PROTOCOLO r = None) ->
  df_divergente a d = [] /\ df_igual a d = [].
Proof.
  intros H. rewrite df_divergente_spec, df_igual_spec.
  assert (E : joined a d = []).
  { unfold joined. rewrite df_merged_spec. destruct H as [H|H].
    - now rewrite (cleaned_nil a H).
    - now rewrite (cleaned_nil d H), merge_nil_r. }
  now rewrite E.
Qed.

Lemma X1_no_identifier_no_outcome_witness :
  df_divergente [row "1" "A"; row "2" "B"] [mkRow None (Some (str "A"))] = []
  /\ df_igual [row "1" "A"; row "2" "B"] [mkRow None (Some (str "A"))] = [].
Proof.
  apply X1_no_identifier_no_outcome. right.
  intros r [<-|[]]. reflexivity.
Defined.

Lemma strip_normalize (s : pystr) : strip (normalize s) = normalize s.
Proof. unfold normalize. now rewrite strip_upper, strip_idem. Qed.

Lemma upper_normalize (s : pystr) : upper (normalize s) = normalize s.
Proof. unfold normalize. apply upper_idem. Qed.

(** X2. Every text of an outcome record, the identifier and the two
    statuses, is trimmed and uppercased: [strip] and [upper] leave it as it
    is. *)
Theorem X2_outcome_texts_normalized (a d : DataFrame) (m : MRow) (t : pystr) :
  In m (df_divergente a d ++ df_igual a d) ->
  PROTOCOLO m = Some t \/ STATUS_ALGAR m = Some t \/ STATUS_AG m = Some t ->
  strip t = t /\ upper t = t.
Proof.
  intros Hm Ht. apply outcome_in_joined, in_joined in Hm as (Hm & _).
  apply in_df_merged in Hm as (x & y & _ & _ & _ & _ & _ & ->).
  assert (N : forall c, option_map normalize c = Some t ->
                        strip t = t /\ upper t = t).
  { intros [u|] E; [|discriminate]. injection E as <-.
    split; [apply strip_normalize | apply upper_normalize]. }
  simpl in Ht. destruct Ht as [E|[E|E]]; exact (N _ E).
Qed.

Lemma X2_outcome_texts_normalized_witness :
  strip (str "INSTALADO") = str "INSTALADO"
  /\ upper (str "INSTALADO") = str "INSTALADO".
Proof.
  apply (X2_outcome_texts_normalized
           [row " 7" " fechado "] [row "7 " "Instalado"]
           (mrow "7" "FECHADO" "INSTALADO") (str "INSTALADO")).
  - vm_compute. left. reflexivity.
  - right. right. reflexivity.
Defined.

(** ** Whitespace and case in the statuses *)

Lemma in_joined_of_rows (a d : DataFrame) (ia id' sa sd : pystr) :
  In (mkRow (Some ia) (Some sa)) a ->
  In (mkRow (Some id') (Some sd)) d ->
  normalize ia = normalize id' ->
  In (mkMRow (Some (normalize ia)) (Some (normalize sa)) (Some (normalize sd)))
     (joined a d).
Proof.
  intros Ha Hd E. apply in_joined. split; [|split; discriminate].
  apply in_df_merged. eexists _, _. split; [exact Ha|]. split; [exact Hd|].
  cbn [r_PROTOCOLO r_STATUS option_map].
  repeat split; try discriminate. now rewrite E.
Qed.

Lemma in_igual_iff (a d : DataFrame) (p : cell) (sa sd : pystr) :
  In (mkMRow p (Some sa) (Some sd)) (df_igual a d) <->
  In (mkMRow p (Some sa) (Some sd)) (joined a d) /\ synonym sa = synonym sd.
Proof.
  now rewrite df_igual_spec, filter_In, negb_true_iff, is_divergent_synonym.
Qed.

Lemma in_divergente_iff (a d : DataFrame) (p : cell) (sa sd : pystr) :
  In (mkMRow p (Some sa) (Some sd)) (df_divergente a d) <->
  In (mkMRow p (Some sa) (Some sd)) (joined a d) /\ synonym sa <> synonym sd.
Proof.
  rewrite df_divergente_spec, filter_In, <- (is_divergent_synonym p sa sd).
  destruct (is_divergent (mkMRow p (Some sa) (Some sd))); intuition congruence.
Qed.

(** X3. The comparison of the statuses is insensitive to surrounding
    whitespace and to the case of letters: two rows with matching
    identifiers whose statuses differ only in these give a record of the
    equal set, and not of the divergent set. *)
Theorem X3_status_matching (a d : DataFrame) (ia id' sa sd : pystr) :
  In (mkRow (Some ia) (Some sa)) a ->
  In (mkRow (Some id') (Some sd)) d ->
  differ_only_by_ws_and_case ia id' ->
  differ_only_by_ws_and_case sa sd ->
  let m := mkMRow (Some (normalize ia)) (Some (normalize sa))
                  (Some (normalize sd)) in
  In m (df_igual a d) /\ ~ In m (df_divergente a d).
Proof.
  intros Ha Hd Hi Hs m. subst m.
  apply normalize_differ_only_by_ws_and_case in Hi, Hs.
  pose proof (in_joined_of_rows a d ia id' sa sd Ha Hd Hi) as Hj.
  assert (S : synonym (normalize sa) = synonym (normalize sd))
    by (f_equal; exact Hs).
  rewrite in_igual_iff, in_divergente_iff. split.
  - split; assumption.
  - intros [_ H]. apply H. exact S.
Qed.

Lemma X3_status_matching_witness :
  let a := [row " 7" "Pendente "] in
  let d := [row "7" "PENDENTE"] in
  In (mrow "7" "PENDENTE" "PENDENTE") (df_igual a d)
  /\ ~ In (mrow "7" "PENDENTE" "PENDENTE") (df_divergente a d).
Proof.
  intros a d.
  apply (X3_status_matching a d (str " 7") (str "7")
           (str "Pendente ") (str "PENDENTE")).
  - left. reflexivity.
  - left. reflexivity.
  - exists (str " "), (str "7"), [], [], (str "7"), [].
    repeat split; try reflexivity. same_letters_of_texts.
  - exists [], (str "Pendente"), (str " "), [], (str "PENDENTE"), [].
    repeat split; try reflexivity. same_letters_of_texts.
Defined.

(** ** The synonyms *)

Lemma FECHADO_not_INSTALADO : FECHADO <> INSTALADO.
Proof. vm_compute. discriminate. Qed.

Lemma synonym_eq_iff (sa sd : pystr) :
  synonym sa = synonym sd <->
  sa = sd \/ ((sa = FECHADO \/ sa = INSTALADO) /\ (sd = FECHADO \/ sd = INSTALADO)).
Proof.
  pose proof FECHADO_not_INSTALADO as FI. unfold synonym.
  destruct (eqb_spec sa FECHADO) as [Ea|Ea], (eqb_spec sd FECHADO) as [Ed|Ed];
    subst; intuition (subst; congruence).
Qed.

(** X4. No other synonym is recognized: a joined record is in the equal
    set exactly when its two statuses are the same text or when each of
    them is one of "FECHADO" and "INSTALADO"; otherwise it is in the
    divergent set. *)
Theorem X4_equal_iff_same_or_synonyms
    (a d : DataFrame) (p : cell) (sa sd : pystr) :
  In (mkMRow p (Some sa) (Some sd)) (joined a d) ->
  let same_or_synonyms :=
    sa = sd \/ ((sa = FECHADO \/ sa = INSTALADO)
                /\ (sd = FECHADO \/ sd = INSTALADO)) in
  (In (mkMRow p (Some sa) (Some sd)) (df_igual a d) <-> same_or_synonyms)
  /\ (In (mkMRow p (Some sa) (Some sd)) (df_divergente a d)
      <-> ~ same_or_synonyms).
Proof.
  intros Hj S. subst S.
  rewrite in_igual_iff, in_divergente_iff, <- synonym_eq_iff. tauto.
Qed.

Lemma X4_equal_iff_same_or_synonyms_witness :
  let a := [row "7" "instalado"] in
  let d := [row "7" "fechado"] in
  In (mrow "7" "INSTALADO" "FECHADO") (df_igual a d).
Proof.
  intros a d.
  assert (Hj : In (mrow "7" "INSTALADO" "FECHADO") (joined a d))
    by (vm_compute; left; reflexivity).
  destruct (X4_equal_iff_same_or_synonyms a d (Some (str "7"))
              (str "INSTALADO") (str "FECHADO") Hj) as [H _].
  apply H. right. split; [right|left]; reflexivity.
Defined.

(** ** Exchanging the two record sets *)

Lemma eqb_sym (s t : pystr) : PyStr.eqb s t = PyStr.eqb t s.
Proof.
  destruct (eqb_spec s t) as [->|H]; [now rewrite eqb_refl|].
  destruct (eqb_spec t s) as [->|_]; [now elim H | reflexivity].
Qed.

Lemma key_eqb_sym (a b : cell) : key_eqb a b = key_eqb b a.
Proof. destruct a, b; simpl; auto using eqb_sym. Qed.

Lemma cell_ne_sym (a b : cell) : cell_ne a b = cell_ne b a.
Proof. destruct a, b; simpl; try reflexivity. now rewrite eqb_sym. Qed.

Lemma is_divergent_swap (m : MRow) : is_divergent (swap m) = is_divergent m.
Proof. unfold is_divergent, swap; simpl. apply cell_ne_sym. Qed.

Lemma filter_map_commute (A B : Type) (g : A -> B) (f : B -> bool) (l : list A) :
  filter f (map g l) = map g (filter (fun x => f (g x)) l).
Proof.
  induction l as [|x l IH]; simpl; [reflexivity|].
  destruct (f (g x)); simpl; now rewrite IH.
Qed.

Lemma filter_permutation (A : Type) (f : A -> bool) (l l' : list A) :
  Permutation l l' -> Permutation (filter f l) (filter f l').
Proof.
  induction 1 as [|x l l' _ IH|x y l|l l' l'' _ IH1 _ IH2]; simpl.
  - constructor.
  - destruct (f x); [now constructor | exact IH].
  - destruct (f x), (f y); try reflexivity. constructor.
  - now transitivity (filter f l').
Qed.

(** The join with one more row on the right. *)
Lemma merge_cons_r (left right : DataFrame) (r : Row) :
  Permutation (merge left (r :: right))
    (map (fun l => mkMRow (r_PROTOCOLO l) (r_STATUS l) (r_STATUS r))
         (filter (fun l => key_eqb (r_PROTOCOLO l) (r_PROTOCOLO r)) left)
     ++ merge left right).
Proof.
  unfold merge. induction left as [|l left IH]; simpl; [constructor|].
  destruct (key_eqb (r_PROTOCOLO l) (r_PROTOCOLO r)); simpl.
  - constructor. rewrite IH. apply Permutation_app_swap_app.
  - rewrite IH. apply Permutation_app_swap_app.
Qed.

Lemma merge_swap (left right : DataFrame) :
  Permutation (map swap (merge left right)) (merge right left).
Proof.
  induction left as [|l left IH].
  - rewrite merge_nil_r. constructor.
  - rewrite merge_cons_r. unfold merge at 1. simpl flat_map.
    fold (merge left right). rewrite map_app. apply Permutation_app; [|exact IH].
    rewrite map_map.
    rewrite (filter_ext (fun r => key_eqb (r_PROTOCOLO l) (r_PROTOCOLO r))
                        (fun r => key_eqb (r_PROTOCOLO r) (r_PROTOCOLO l)))
      by (intros r; apply key_eqb_sym).
    erewrite map_ext_in; [reflexivity|].
    intros r Hr. apply filter_In in Hr as [_ Hk]. apply key_eqb_eq in Hk.
    unfold swap; simpl. now rewrite Hk.
Qed.

Lemma joined_swap (a d : DataFrame) :
  Permutation (map swap (joined a d)) (joined d a).
Proof.
  unfold joined, dropna_STATUS. rewrite !df_merged_spec.
  rewrite (filter_ext (fun r => notna (STATUS_ALGAR r) && notna (STATUS_AG r))
                      (fun r => notna (STATUS_AG r) && notna (STATUS_ALGAR r))
                      (fun r => andb_comm _ _) (merge (cleaned d) (cleaned a))).
  rewrite <- (filter_map_commute MRow MRow swap
                (fun r => notna (STATUS_AG r) && notna (STATUS_ALGAR r))).
  apply filter_permutation, merge_swap.
Qed.

(** X5. Exchanging the carrier record set and the internal record set
    exchanges the two statuses in every outcome record and changes nothing
    else: the equal set and the divergent set hold the same records, up to
    their order, and the two counts are the same. *)
Theorem X5_exchange_inputs (a d : DataFrame) :
  Permutation (map swap (df_igual a d)) (df_igual d a)
  /\ Permutation (map swap (df_divergente a d)) (df_divergente d a)
  /\ length (df_igual a d) = length (df_igual d a)
  /\ length (df_divergente a d) = length (df_divergente d a).
Proof.
  assert (Pi : Permutation (map swap (df_igual a d)) (df_igual d a)).
  { rewrite !df_igual_spec.
    rewrite (filter_ext (fun r => negb (is_divergent r))
                        (fun r => negb (is_divergent (swap r))))
      by (intros r; now rewrite is_divergent_swap).
    rewrite <- (filter_map_commute MRow MRow swap (fun r => negb (is_divergent r))).
    apply filter_permutation, joined_swap. }
  assert (Pd : Permutation (map swap (df_divergente a d)) (df_divergente d a)).
  { rewrite !df_divergente_spec.
    rewrite (filter_ext is_divergent (fun r => is_divergent (swap r)))
      by (intros r; now rewrite is_divergent_swap).
    rewrite <- (filter_map_commute MRow MRow swap is_divergent).
    apply filter_permutation, joined_swap. }
  repeat split; try assumption.
  - apply Permutation_length in Pi. now rewrite length_map in Pi.
  - apply Permutation_length in Pd. now rewrite length_map in Pd.
Qed.

(** ** Bounds on the counts *)

Lemma length_filter_le (A : Type) (f : A -> bool) (l : list A) :
  length (filter f l) <= length l.
Proof.
  induction l as [|x l IH]; simpl; [lia|]. destruct (f x); simpl; lia.
Qed.

Lemma merge_length_le (left right : DataFrame) :
  length (merge left right) <= length left * length right.
Proof.
  unfold merge. induction left as [|l left IH]; simpl; [lia|].
  rewrite length_app, length_map.
  pose proof (length_filter_le Row
                (fun r => key_eqb (r_PROTOCOLO l) (r_PROTOCOLO r)) right).
  lia.
Qed.

Lemma cleaned_length_le (df : DataFrame) : length (cleaned df) <= length df.
Proof.
  unfold cleaned, dropna_PROTOCOLO. rewrite length_map. apply length_filter_le.
Qed.

Lemma outcomes_length (a d : DataFrame) :
  length (df_divergente a d) + length (df_igual a d) = length (joined a d).
Proof.
  rewrite <- length_app. apply Permutation_length, outcomes_permutation.
Qed.

Lemma joined_length_le (a d : DataFrame) :
  length (joined a d) <= length (merge (cleaned a) (cleaned d)).
Proof.
  unfold joined, dropna_STATUS. rewrite df_merged_spec. apply length_filter_le.
Qed.

(** X6. The two outcome sets hold together at most as many records as
    there are pairs of a carrier row and an internal row. *)
Theorem X6_outcome_count_bound (a d : DataFrame) :
  length (df_divergente a d) + length (df_igual a d) <= length a * length d.
Proof.
  rewrite outcomes_length.
  pose proof (joined_length_le a d).
  pose proof (merge_length_le (cleaned a) (cleaned d)).
  pose proof (cleaned_length_le a). pose proof (cleaned_length_le d).
  nia.
Qed.

Lemma merge_length_unique (left right : DataFrame) :
  (forall c, length (filter (fun r => key_eqb c (r_PROTOCOLO r)) right) <= 1) ->
  length (merge left right) <= length left.
Proof.
  intros H. unfold merge. induction left as [|l left IH]; simpl; [lia|].
  rewrite length_app, length_map. specialize (H (r_PROTOCOLO l)). lia.
Qed.

Lemma filter_none (A : Type) (f : A -> bool) (l : list A) :
  (forall x, In x l -> f x = false) -> filter f l = [].
Proof.
  induction l as [|x l IH]; simpl; intros H; [reflexivity|].
  rewrite (H x (or_introl eq_refl)). apply IH. intros y Hy. apply H. now right.
Qed.

Lemma cleaned_unique (df : DataFrame) :
  (forall k, count_id k df <= 1) ->
  forall c, length (filter (fun r => key_eqb c (r_PROTOCOLO r)) (cleaned df)) <= 1.
Proof.
  intros H [k|].
  - rewrite (count_filter_ext Row _ (on_side k (fun _ => true)))
      by (intros r; unfold on_side; now rewrite key_eqb_sym, andb_true_r).
    rewrite (count_cleaned k (fun _ => true)).
    rewrite (count_filter_ext Row _ (has_id k))
      by (intros r; apply andb_true_r).
    apply H.
  - rewrite filter_none; [simpl; lia|].
    intros r Hr. apply cleaned_has_identifier in Hr.
    now destruct (r_PROTOCOLO r).
Qed.

Lemma merge_length_sym (left right : DataFrame) :
  length (merge left right) = length (merge right left).
Proof.
  rewrite <- (Permutation_length (merge_swap left right)).
  now rewrite length_map.
Qed.

(** X7. When no identifier occurs twice in the internal record set, the
    two outcome sets hold together at most as many records as the carrier
    record set has rows; and the same with the two record sets exchanged. *)
Theorem X7_unique_identifiers (a d : DataFrame) :
  ((forall k, count_id k d <= 1) ->
   length (df_divergente a d) + length (df_igual a d) <= length a)
  /\ ((forall k, count_id k a <= 1) ->
      length (df_divergente a d) + length (df_igual a d) <= length d).
Proof.
  rewrite outcomes_length. pose proof (joined_length_le a d) as Hj.
  split; intros H.
  - pose proof (merge_length_unique (cleaned a) (cleaned d) (cleaned_unique d H)).
    pose proof (cleaned_length_le a). lia.
  - rewrite merge_length_sym in Hj.
    pose proof (merge_length_unique (cleaned d) (cleaned a) (cleaned_unique a H)).
    pose proof (cleaned_length_le d). lia.
Qed.

Lemma X7_unique_identifiers_witness :
  let a := [row "1" "A"; row "1" "B"; row "2" "C"] in
  let d := [row "1" "A"] in
  length (df_divergente a d) + length (df_igual a d) <= length a
  /\ length (df_divergente d a) + length (df_igual d a) <= length a.
Proof.
  intros a d.
  assert (U : forall k, count_id k d <= 1).
  { intros k. unfold count_id, d. simpl.
    destruct (has_id k (row "1" "A")); simpl; lia. }
  split.
  - exact (proj1 (X7_unique_identifiers a d) U).
  - exact (proj2 (X7_unique_identifiers d a) U).
Defined.

(** ** The page *)

Section PageProperties.

Variable UploadedFile : Type.
Variable read_csv : UploadedFile -> Exception + list (cell * cell).
Variable read_excel : UploadedFile -> Exception + list (cell * cell).

Lemma script_success (fa fd : UploadedFile) (csv xlsx : list (cell * cell)) :
  read_csv fa = inr csv -> read_excel fd = inr xlsx ->
  script read_csv read_excel (Some fa) (Some fd)
  = page_header
    ++ page_results (df_divergente (frame_of_csv csv) (frame_of_xlsx xlsx))
                    (df_igual (frame_of_csv csv) (frame_of_xlsx xlsx)).
Proof.
  intros H1 H2. unfold script, carregar_dados_upload, carregar_try.
  rewrite H1, H2. fold (frame_of_csv csv) (frame_of_xlsx xlsx).
  unfold df_divergente, df_igual, run.
  destruct (processar_e_comparar _) as [[div eq] st]. reflexivity.
Qed.

Lemma script_failure (fa fd : UploadedFile) (e : Exception) :
  carregar_try read_csv read_excel fa fd = inl e ->
  script read_csv read_excel (Some fa) (Some fd)
  = page_header ++ [st_error MSG_ERRO_LEITURA; st_error (MSG_DETALHE e)].
Proof.
  intros H. unfold script, carregar_dados_upload. now rewrite H.
Qed.

(** The three ways in which a run of the script ends. *)
Lemma script_cases (arquivo_algar arquivo_data : option UploadedFile) :
  (exists prompt,
     script read_csv read_excel arquivo_algar arquivo_data
     = page_header ++ [st_info prompt])
  \/ (exists m1 m2,
        script read_csv read_excel arquivo_algar arquivo_data
        = page_header ++ [st_error m1; st_error m2])
  \/ (exists div eq,
        script read_csv read_excel arquivo_algar arquivo_data
        = page_header ++ page_results div eq).
Proof.
  destruct arquivo_algar as [fa|], arquivo_data as [fd|];
    try (left; eexists; reflexivity).
  destruct (carregar_try read_csv read_excel fa fd) as [e|[a d]] eqn:E.
  - right; left. eexists _, _. exact (script_failure fa fd e E).
  - right; right. unfold carregar_try in E.
    destruct (read_csv fa) as [|csv] eqn:E1; [discriminate|].
    destruct (read_excel fd) as [|xlsx] eqn:E2; [discriminate|].
    eexists _, _. exact (script_success fa fd csv xlsx E1 E2).
Qed.

End PageProperties.

Lemma tables_page_results (div eq : MergedFrame) :
  tables (page_header ++ page_results div eq)
  = (if empty div then [] else [div]) ++ (if empty eq then [] else [eq]).
Proof. unfold tables. now destruct div, eq. Qed.

Lemma metrics_page_results (div eq : MergedFrame) :
  metrics (page_header ++ page_results div eq) = [length eq; length div].
Proof. unfold metrics. now destruct div, eq. Qed.

Lemma errors_page_results (div eq : MergedFrame) :
  errors (page_header ++ page_results div eq) = [].
Proof. unfold errors. now destruct div, eq. Qed.

(** X8. As long as one of the two files is not uploaded the script reads
    nothing and compares nothing: after the header the page shows the
    prompt to upload the files, and nothing else. *)
Theorem X8_prompt_until_both_uploaded
    (UploadedFile : Type)
    (read_csv read_excel : UploadedFile -> Exception + list (cell * cell))
    (arquivo_algar arquivo_data : option UploadedFile) :
  arquivo_algar = None \/ arquivo_data = None ->
  script read_csv read_excel arquivo_algar arquivo_data
  = page_header
    ++ [st_info "⬅️ Por favor, carregue os arquivos `algar.csv` e `data.xlsx` na barra lateral para iniciar a análise."].
Proof.
  intros [->| ->]; [|destruct arquivo_algar]; reflexivity.
Qed.

Lemma X8_prompt_until_both_uploaded_witness :
  script (fun _ : string => inr []) (fun _ : string => inr [])
         (Some "algar.csv"%string) None
  = page_header
    ++ [st_info "⬅️ Por favor, carregue os arquivos `algar.csv` e `data.xlsx` na barra lateral para iniciar a análise."].
Proof.
  apply X8_prompt_until_both_uploaded. right. reflexivity.
Defined.

(** X9. When the loader fails, the page shows after the header the two
    error messages of the loader and nothing else: no metric, no table and
    no prompt. *)
Theorem X9_failed_load_page
    (UploadedFile : Type)
    (read_csv read_excel : UploadedFile -> Exception + list (cell * cell))
    (arquivo_algar arquivo_data : UploadedFile) (e : Exception) :
  read_csv arquivo_algar = inl e
  \/ (exists rows, read_csv arquivo_algar = inr rows
                   /\ read_excel arquivo_data = inl e) ->
  let page := script read_csv read_excel (Some arquivo_algar) (Some arquivo_data) in
  page = page_header
         ++ [st_error MSG_ERRO_LEITURA;
             st_error ("Detalhe do erro: " ++ exc_str e)%string]
  /\ metrics page = [] /\ tables page = [].
Proof.
  intros H page.
  assert (E : carregar_try read_csv read_excel arquivo_algar arquivo_data = inl e).
  { unfold carregar_try. destruct H as [H|(rows & H1 & H2)].
    - now rewrite H.
    - now rewrite H1, H2. }
  subst page. rewrite (script_failure _ _ _ _ _ _ E). repeat split.
Qed.

Lemma X9_failed_load_page_witness :
  let read_csv := fun _ : string =>
    inl (mkException "Could not determine delimiter")
    : Exception + list (cell * cell) in
  let read_excel := fun _ : string =>
    inr [] : Exception + list (cell * cell) in
  script read_csv read_excel (Some "algar.csv"%string) (Some "data.xlsx"%string)
  = page_header
    ++ [st_error MSG_ERRO_LEITURA;
        st_error "Detalhe do erro: Could not determine delimiter"].
Proof.
  intros read_csv read_excel.
  refine (proj1 (X9_failed_load_page string read_csv read_excel
                   "algar.csv"%string "data.xlsx"%string
                   (mkException "Could not determine delimiter") _)).
  left. reflexivity.
Defined.

(** X10. When both files load, the page shows two metrics: the number of
    records of the equal set, then the number of records of the divergent
    set.  They add up to the number of joined records with a status on both
    sides, which is at most the number of pairs of a row of each file. *)
Theorem X10_metrics
    (UploadedFile : Type)
    (read_csv read_excel : UploadedFile -> Exception + list (cell * cell))
    (arquivo_algar arquivo_data : UploadedFile)
    (csv xlsx : list (cell * cell)) :
  read_csv arquivo_algar = inr csv ->
  read_excel arquivo_data = inr xlsx ->
  let a := frame_of_csv csv in
  let d := frame_of_xlsx xlsx in
  let page := script read_csv read_excel (Some arquivo_algar) (Some arquivo_data) in
  metrics page = [length (df_igual a d); length (df_divergente a d)]
  /\ list_sum (metrics page) = length (joined a d)
  /\ list_sum (metrics page) <= length csv * length xlsx
  /\ errors page = [].
Proof.
  intros H1 H2 a d page. subst page.
  rewrite (script_success _ _ _ _ _ _ _ H1 H2).
  rewrite metrics_page_results, errors_page_results. fold a d.
  pose proof (outcomes_length a d) as L.
  split; [reflexivity|]. split; [simpl; lia|]. split; [|reflexivity].
  pose proof (joined_length_le a d).
  pose proof (merge_length_le (cleaned a) (cleaned d)).
  pose proof (cleaned_length_le a). pose proof (cleaned_length_le d).
  assert (length a = length csv) by (unfold a, frame_of_csv; apply length_map).
  assert (length d = length xlsx) by (unfold d, frame_of_xlsx; apply length_map).
  simpl. nia.
Qed.

Lemma X10_metrics_witness :
  let read_csv := fun _ : string =>
    inr [(Some (str "001"), Some (str "FECHADO"));
         (Some (str "002"), Some (str "PENDENTE"))]
    : Exception + list (cell * cell) in
  let read_excel := fun _ : string =>
    inr [(Some (str "INSTALADO"), Some (str "001"));
         (Some (str "CANCELADO"), Some (str "002"))]
    : Exception + list (cell * cell) in
  metrics (script read_csv read_excel
             (Some "algar.csv"%string) (Some "data.xlsx"%string))
  = [1; 1].
Proof.
  intros read_csv read_excel.
  exact (proj1 (X10_metrics string read_csv read_excel
                  "algar.csv"%string "data.xlsx"%string _ _ eq_refl eq_refl)).
Defined.

(** X11. On every page that the script produces, no table is empty, the
    tables hold together as many rows as the metrics add up to, and when an
    error message is shown there is neither a metric nor a table. *)
Theorem X11_tables_and_metrics
    (UploadedFile : Type)
    (read_csv read_excel : UploadedFile -> Exception + list (cell * cell))
    (arquivo_algar arquivo_data : option UploadedFile) :
  let page := script read_csv read_excel arquivo_algar arquivo_data in
  (forall df, In df (tables page) -> df <> [])
  /\ list_sum (map (@length MRow) (tables page)) = list_sum (metrics page)
  /\ (errors page <> [] -> metrics page = [] /\ tables page = []).
Proof.
  intros page. subst page.
  destruct (script_cases _ read_csv read_excel arquivo_algar arquivo_data)
    as [(p & ->)|[(m1 & m2 & ->)|(div & eq & ->)]].
  - repeat split; intros df [].
  - repeat split; intros df [].
  - rewrite tables_page_results, metrics_page_results, errors_page_results.
    split; [|split].
    + intros df Hdf. destruct div, eq; simpl in Hdf;
        intuition (subst; discriminate).
    + destruct div, eq; simpl; lia.
    + intros H. now elim H.
Qed.

Lemma in_page_results_success (div eq : MergedFrame) :
  In (st_success "Nenhuma divergência encontrada!")
     (page_header ++ page_results div eq) <-> div = [].
Proof.
  split.
  - intros H. destruct div as [|m div]; [reflexivity|]. exfalso.
    destruct eq; simpl in H;
      repeat (destruct H as [H|H]; [discriminate H|]); exact H.
  - intros ->. simpl. do 13 right. left. reflexivity.
Qed.

Lemma in_page_results_info (div eq : MergedFrame) :
  In (st_info "Nenhum protocolo com status igual foi encontrado.")
     (page_header ++ page_results div eq) <-> eq = [].
Proof.
  split.
  - intros H. destruct eq as [|m eq]; [reflexivity|]. exfalso.
    destruct div; simpl in H;
      repeat (destruct H as [H|H]; [discriminate H|]); exact H.
  - intros ->. simpl. do 17 right. left. reflexivity.
Qed.

(** X12. When both files load, the page says that no divergence was found
    exactly when the divergent set is empty, and that no protocol with an
    equal status was found exactly when the equal set is empty; otherwise
    the set is shown as a table. *)
Theorem X12_placeholders
    (UploadedFile : Type)
    (read_csv read_excel : UploadedFile -> Exception + list (cell * cell))
    (arquivo_algar arquivo_data : UploadedFile)
    (csv xlsx : list (cell * cell)) :
  read_csv arquivo_algar = inr csv ->
  read_excel arquivo_data = inr xlsx ->
  let a := frame_of_csv csv in
  let d := frame_of_xlsx xlsx in
  let page := script read_csv read_excel (Some arquivo_algar) (Some arquivo_data) in
  (In (st_success "Nenhuma divergência encontrada!") page
   <-> df_divergente a d = [])
  /\ (In (st_info "Nenhum protocolo com status igual foi encontrado.") page
      <-> df_igual a d = [])
  /\ tables page
     = (if empty (df_divergente a d) then [] else [df_divergente a d])
       ++ (if empty (df_igual a d) then [] else [df_igual a d]).
Proof.
  intros H1 H2 a d page. subst page.
  rewrite (script_success _ _ _ _ _ _ _ H1 H2). fold a d.
  split; [apply in_page_results_success|].
  split; [apply in_page_results_info | apply tables_page_results].
Qed.

Lemma X12_placeholders_witness :
  let read_csv := fun _ : string =>
    inr [(Some (str "001"), Some (str "FECHADO"))]
    : Exception + list (cell * cell) in
  let read_excel := fun _ : string =>
    inr [(Some (str "INSTALADO"), Some (str "001"))]
    : Exception + list (cell * cell) in
  In (st_success "Nenhuma divergência encontrada!")
     (script read_csv read_excel
        (Some "algar.csv"%string) (Some "data.xlsx"%string)).
Proof.
  intros read_csv read_excel.
  apply (proj1 (X12_placeholders string read_csv read_excel
                  "algar.csv"%string "data.xlsx"%string _ _ eq_refl eq_refl)).
  reflexivity.
Defined.

Lemma in_frame_of_csv (csv : list (cell * cell)) (r : Row) :
  In r (frame_of_csv csv) <-> In (r_PROTOCOLO r, r_STATUS r) csv.
Proof.
  unfold frame_of_csv. rewrite in_map_iff. split.
  - intros ([c2 c19] & <- & H). exact H.
  - intros H. exists (r_PROTOCOLO r, r_STATUS r). split; [now destruct r | exact H].
Qed.

Lemma in_frame_of_xlsx (xlsx : list (cell * cell)) (r : Row) :
  In r (frame_of_xlsx xlsx) <-> In (r_STATUS r, r_PROTOCOLO r) xlsx.
Proof.
  unfold frame_of_xlsx. rewrite in_map_iff. split.
  - intros ([c0 c3] & <- & H). exact H.
  - intros H. exists (r_STATUS r, r_PROTOCOLO r). split; [now destruct r | exact H].
Qed.

(** X13. When both files load into cells of text or NaN, the records shown
    in the tables are exactly these: for every row of the CSV file and
    every row of the spreadsheet
    whose identifiers (column 2 of the CSV file, column 3 of the
    spreadsheet) are present and equal after trimming and uppercasing, and
    whose statuses (column 19 and column 0) are text, the record of the
    normalized identifier and the two normalized statuses. *)
Theorem X13_shown_records
    (UploadedFile : Type)
    (read_csv read_excel : UploadedFile -> Exception + list (cell * cell))
    (arquivo_algar arquivo_data : UploadedFile)
    (csv xlsx : list (cell * cell)) (m : MRow) :
  read_csv arquivo_algar = inr csv ->
  read_excel arquivo_data = inr xlsx ->
  let page := script read_csv read_excel (Some arquivo_algar) (Some arquivo_data) in
  (exists df, In df (tables page) /\ In m df)
  <-> (exists i s i' s',
         In (Some i, Some s) csv /\ In (Some s', Some i') xlsx
         /\ normalize i = normalize i'
         /\ m = mkMRow (Some (normalize i)) (Some (normalize s))
                       (Some (normalize s'))).
Proof.
  intros H1 H2 page. subst page.
  rewrite (script_success _ _ _ _ _ _ _ H1 H2), tables_page_results.
  set (a := frame_of_csv csv). set (d := frame_of_xlsx xlsx).
  assert (T : (exists df,
                 In df ((if empty (df_divergente a d) then [] else [df_divergente a d])
                        ++ (if empty (df_igual a d) then [] else [df_igual a d]))
                 /\ In m df)
              <-> In m (df_divergente a d ++ df_igual a d)).
  { rewrite in_app_iff. split.
    - intros (df & Hdf & Hm). apply in_app_iff in Hdf.
      destruct (df_divergente a d), (df_igual a d); simpl in Hdf;
        intuition (subst; auto).
    - intros [Hm|Hm].
      + exists (df_divergente a d). split; [|exact Hm].
        destruct (df_divergente a d); [destruct Hm|]. simpl. now left.
      + exists (df_igual a d). split; [|exact Hm].
        apply in_app_iff. right.
        destruct (df_igual a d); [destruct Hm|]. simpl. now left. }
  rewrite T. split.
  - intros Hm. apply outcome_in_joined, in_joined in Hm as (Hm & Hsa & Hsd).
    apply in_df_merged in Hm as (x & y & Hx & Hy & Hpx & Hpy & Hk & ->).
    apply in_frame_of_csv in Hx. apply in_frame_of_xlsx in Hy.
    destruct x as [[i|] [s|]], y as [[i'|] [s'|]]; simpl in *; try congruence.
    exists i, s, i', s'. repeat split; try assumption. congruence.
  - intros (i & s & i' & s' & Hx & Hy & Hk & ->).
    apply joined_in_outcome, in_joined_of_rows with (id' := i').
    + now apply in_frame_of_csv.
    + now apply in_frame_of_xlsx.
    + exact Hk.
Qed.

Lemma X13_shown_records_witness :
  let read_csv := fun _ : string =>
    inr [(Some (str " abc123 "), Some (str "fechado"))]
    : Exception + list (cell * cell) in
  let read_excel := fun _ : string =>
    inr [(Some (str "Instalado"), Some (str "ABC123"))]
    : Exception + list (cell * cell) in
  exists df,
    In df (tables (script read_csv read_excel
                     (Some "algar.csv"%string) (Some "data.xlsx"%string)))
    /\ In (mrow "ABC123" "FECHADO" "INSTALADO") df.
Proof.
  intros read_csv read_excel.
  apply (X13_shown_records string read_csv read_excel
           "algar.csv"%string "data.xlsx"%string _ _ _ eq_refl eq_refl).
  exists (str " abc123 "), (str "fechado"), (str "ABC123"), (str "Instalado").
  split; [left; reflexivity|]. split; [left; reflexivity|].
  split; reflexivity.
Defined.

(** ** Blank identifiers and blank statuses *)

Lemma strip_all_space (s : pystr) : forallb isspace s = true -> strip s = [].
Proof. intros H. unfold strip. now rewrite lstrip_nil_all_space. Qed.

Lemma lstrip_nil_inv (s : pystr) : lstrip s = [] -> forallb isspace s = true.
Proof.
  induction s as [|c s IH]; simpl; [reflexivity|].
  destruct (isspace c); [exact IH | discriminate].
Qed.

Lemma strip_nil_inv (s : pystr) : strip s = [] -> forallb isspace s = true.
Proof.
  unfold strip. intros H.
  assert (E : lstrip (rstrip (lstrip s)) = []) by now rewrite H.
  rewrite lstrip_rstrip, lstrip_idem in E. fold (strip s) in E.
  clear H. unfold strip in E.
  destruct (lstrip s) as [|c t] eqn:L; [now apply lstrip_nil_inv|].
  exfalso.
  assert (Hc : isspace c = false).
  { destruct s as [|x s]; [discriminate|].
    pose proof (lstrip_idem (x :: s)) as I. rewrite L in I. simpl in I.
    destruct (isspace c); [|reflexivity].
    assert (Hlen : length (lstrip t) <= length t).
    { clear. induction t as [|y t IH]; simpl; [lia|].
      destruct (isspace y); simpl; lia. }
    rewrite I in Hlen. simpl in Hlen. lia. }
  rewrite rstrip_cons in E. destruct (rstrip t); [|discriminate].
  now rewrite Hc in E.
Qed.

Lemma upper_nil_inv (s : pystr) : upper s = [] -> s = [].
Proof.
  destruct s as [|c s]; [reflexivity|].
  change (upper (c :: s)) with (upper_cp c ++ upper s).
  intros H. apply app_eq_nil in H as [H _]. exfalso.
  destruct (upper_cp_entry c) as [E|E].
  - rewrite E in H. discriminate.
  - apply upper_entry in E as (_ & Hn & _). contradiction.
Qed.

(** A text is blank when [normalize] makes the empty text of it. *)
Lemma normalize_nil_iff (s : pystr) :
  normalize s = [] <-> forallb isspace s = true.
Proof.
  unfold normalize. split.
  - intros H. now apply strip_nil_inv, upper_nil_inv.
  - intros H. now rewrite strip_all_space.
Qed.

(** X14. Identifiers of whitespace alone are no missing identifiers: a
    carrier row and an internal row with such identifiers, each with a
    status, are joined under the empty identifier and classified. *)
Theorem X14_blank_identifiers_join (a d : DataFrame) (ia id' sa sd : pystr) :
  In (mkRow (Some ia) (Some sa)) a ->
  In (mkRow (Some id') (Some sd)) d ->
  forallb isspace ia = true ->
  forallb isspace id' = true ->
  In (mkMRow (Some []) (Some (normalize sa)) (Some (normalize sd)))
     (df_divergente a d ++ df_igual a d).
Proof.
  intros Ha Hd Hia Hid.
  apply normalize_nil_iff in Hia, Hid.
  apply joined_in_outcome. rewrite <- Hia.
  apply in_joined_of_rows with (id' := id'); try assumption. congruence.
Qed.

Lemma X14_blank_identifiers_join_witness :
  In (mrow "" "A" "B")
     (df_divergente [row " " "a"] [row "" "b"]
      ++ df_igual [row " " "a"] [row "" "b"]).
Proof.
  apply (X14_blank_identifiers_join [row " " "a"] [row "" "b"]
           (str " ") (str "") (str "a") (str "b"));
    first [left; reflexivity | reflexivity].
Defined.

Lemma synonym_nil : synonym [] = [].
Proof. reflexivity. Qed.

Lemma synonym_nil_inv (s : pystr) : synonym s = [] -> s = [].
Proof.
  unfold synonym. destruct (PyStr.eqb s FECHADO); [discriminate | auto].
Qed.

(** X15. A status of whitespace alone is no missing status: the record of
    a carrier row with such a status and of an internal row with the same
    identifier and a status is classified, in the equal set when the
    internal status is of whitespace alone too and in the divergent set
    otherwise. *)
Theorem X15_blank_status_classified
    (a d : DataFrame) (ia id' sa sd : pystr) :
  In (mkRow (Some ia) (Some sa)) a ->
  In (mkRow (Some id') (Some sd)) d ->
  normalize ia = normalize id' ->
  forallb isspace sa = true ->
  let m := mkMRow (Some (normalize ia)) (Some []) (Some (normalize sd)) in
  (In m (df_igual a d) <-> forallb isspace sd = true)
  /\ (In m (df_divergente a d) <-> forallb isspace sd = false).
Proof.
  intros Ha Hd Hk Hsa m. subst m.
  pose proof (in_joined_of_rows a d ia id' sa sd Ha Hd Hk) as Hj.
  apply normalize_nil_iff in Hsa. rewrite Hsa in Hj.
  rewrite in_igual_iff, in_divergente_iff, synonym_nil, <- normalize_nil_iff.
  assert (E : [] = synonym (normalize sd) <-> normalize sd = []).
  { split; intros H.
    - now apply synonym_nil_inv.
    - now rewrite H. }
  rewrite E. split; [tauto|].
  rewrite <- not_true_iff_false, <- normalize_nil_iff. tauto.
Qed.

Lemma X15_blank_status_classified_witness :
  In (mrow "5" "" "OK") (df_divergente [row "5" "  "] [row "5" "ok"]).
Proof.
  apply (X15_blank_status_classified [row "5" "  "] [row "5" "ok"]
           (str "5") (str "5") (str "  ") (str "ok"));
    first [left; reflexivity | reflexivity].
Defined.

(** ** One more row *)

Lemma in_joined_rows (a d : DataFrame) (m : MRow) :
  In m (joined a d) <->
  exists x y, In x a /\ In y d /\
    r_PROTOCOLO x <> None /\ r_PROTOCOLO y <> None /\
    option_map normalize (r_PROTOCOLO x) = option_map normalize (r_PROTOCOLO y) /\
    r_STATUS x <> None /\ r_STATUS y <> None /\
    m = mkMRow (option_map normalize (r_PROTOCOLO x))
               (option_map normalize (r_STATUS x))
               (option_map normalize (r_STATUS y)).
Proof.
  rewrite in_joined, in_df_merged. split.
  - intros ((x & y & Hx & Hy & Hpx & Hpy & Hk & ->) & Hsa & Hsd).
    simpl in Hsa, Hsd. exists x, y. repeat split; try assumption.
    + now destruct (r_STATUS x).
    + now destruct (r_STATUS y).
  - intros (x & y & Hx & Hy & Hpx & Hpy & Hk & Hsx & Hsy & ->). split.
    + now exists x, y.
    + simpl. split; [now destruct (r_STATUS x) | now destruct (r_STATUS y)].
Qed.

(** X16. A further row in each record set changes no record of the
    outcome sets: every record of the equal set and of the divergent set
    stays where it is, and every record that comes in addition has the
    identifier of one of the new rows. *)
Theorem X16_one_more_row
    (a1 a2 d1 d2 : DataFrame) (ra rd : Row) (m : MRow) :
  let a := a1 ++ a2 in
  let d := d1 ++ d2 in
  let a' := a1 ++ ra :: a2 in
  let d' := d1 ++ rd :: d2 in
  (In m (df_igual a d) -> In m (df_igual a' d'))
  /\ (In m (df_divergente a d) -> In m (df_divergente a' d'))
  /\ (In m (df_divergente a' d' ++ df_igual a' d') ->
      In m (df_divergente a d ++ df_igual a d)
      \/ PROTOCOLO m = option_map normalize (r_PROTOCOLO ra)
      \/ PROTOCOLO m = option_map normalize (r_PROTOCOLO rd)).
Proof.
  intros a d a' d'.
  assert (Ia : forall x, In x a' <-> In x a \/ x = ra).
  { intros x. unfold a, a'. rewrite !in_app_iff. simpl. intuition. }
  assert (Id : forall y, In y d' <-> In y d \/ y = rd).
  { intros y. unfold d, d'. rewrite !in_app_iff. simpl. intuition. }
  assert (Hmono : In m (joined a d) -> In m (joined a' d')).
  { rewrite !in_joined_rows. intros (x & y & Hx & Hy & H). exists x, y.
    split; [apply Ia; now left|]. split; [apply Id; now left | exact H]. }
  split; [|split].
  - rewrite !df_igual_spec, !filter_In. tauto.
  - rewrite !df_divergente_spec, !filter_In. tauto.
  - intros Hm. apply outcome_in_joined, in_joined_rows in Hm
      as (x & y & Hx & Hy & Hpx & Hpy & Hk & Hsx & Hsy & ->).
    apply Ia in Hx. apply Id in Hy. cbn [PROTOCOLO].
    destruct Hx as [Hx| ->]; [|right; left; reflexivity].
    destruct Hy as [Hy| ->]; [|right; right; exact Hk].
    left. apply joined_in_outcome, in_joined_rows. exists x, y.
    repeat split; assumption.
Qed.

Lemma X16_one_more_row_witness :
  In (mrow "1" "A" "A")
     (df_igual ([row "1" "a"] ++ row "2" "b" :: [])
               ([] ++ row "2" "c" :: [row "1" "A"])).
Proof.
  apply (proj1 (X16_one_more_row [row "1" "a"] [] [] [row "1" "A"]
                  (row "2" "b") (row "2" "c") (mrow "1" "A" "A"))).
  vm_compute. left. reflexivity.
Defined.
